(** * The hardware sample store, its interpolation engine and the
      tabulation handler

    A shallow embedding of [api/hardware/hardware.go] and [api/handler.go].

    - The store [hardware : map[string]map[int64]*Sample] is a finite map of
      finite maps; a [*Sample] that is mutated in place becomes a functional
      update of the entry that holds it.
    - [int64] values are integers with the wrap-around written out where the
      code computes with them; [float64] values are IEEE-754 binary64 numbers
      (precision 53, maximal exponent 1024) with round-to-nearest-even
      arithmetic, no fused multiply-add.
    - [math.Cos] and [time.Time.Format] belong to the Go standard library and
      are taken as parameters ([GoLib]).
    - A Go panic is a result of its own, next to returned errors. *)

From Stdlib Require Import ZArith Lia Bool Reals Lra.
From Stdlib Require Import Floats.SpecFloat.
From stdpp Require Import gmap strings list fin_maps sorting.

Local Open Scope Z_scope.

(** ** Machine integers *)

Module Int64.

Definition min : Z := - 2 ^ 63.
Definition max : Z := 2 ^ 63 - 1.

Definition in_range (z : Z) : Prop := min <= z <= max.

(** Two's complement wrap-around of a 64-bit result. *)
Definition wrap (z : Z) : Z := (z + 2 ^ 63) mod 2 ^ 64 - 2 ^ 63.

Definition add (a b : Z) : Z := wrap (a + b).
Definition sub (a b : Z) : Z := wrap (a - b).

(** [time.Time.Sub] clamps its result to the representable durations. *)
Definition saturate (z : Z) : Z := Z.max min (Z.min max z).

End Int64.

(** ** Binary64 floating point *)

Module Float64.

Definition prec : Z := 53.
Definition emax : Z := 1024.

Definition float64 : Type := spec_float.

Definition add : float64 -> float64 -> float64 := SFadd prec emax.
Definition sub : float64 -> float64 -> float64 := SFsub prec emax.
Definition mul : float64 -> float64 -> float64 := SFmul prec emax.
Definition div : float64 -> float64 -> float64 := SFdiv prec emax.

(** The conversion [float64(x)] of an [int64]: the nearest binary64 number. *)
Definition of_int64 (z : Z) : float64 := binary_normalize prec emax z 0 false.

(** The conversion [int64(x)] of a [float64]: truncation toward zero. Go leaves
    the result implementation-defined when the value does not fit (or is not a
    number); the model takes what amd64 produces, the smallest [int64]. *)
Definition to_int64 (f : float64) : Z :=
  match f with
  | S754_zero _ => 0
  | S754_finite s m e =>
      let z := cond_Zopp s (if 0 <=? e then Zpos m * 2 ^ e else Zpos m / 2 ^ (- e)) in
      if andb (Int64.min <=? z) (z <=? Int64.max) then z else Int64.min
  | _ => Int64.min
  end.

Definition zero : float64 := S754_zero false.
Definition half : float64 := S754_finite false 4503599627370496 (-53).
Definition one : float64 := S754_finite false 4503599627370496 (-52).
(** [math.Pi] rounded to binary64: 0x400921FB54442D18. *)
Definition Pi : float64 := S754_finite false 7074237752028440 (-51).
Definition NaN : float64 := S754_nan.

Definition is_finite (f : float64) : bool :=
  match f with
  | S754_zero _ | S754_finite _ _ _ => true
  | _ => false
  end.


End Float64.

Abbreviation float64 := Float64.float64.

(** ** Instants and durations (package [time]) *)

Module time.

(** An instant, in nanoseconds since the Unix epoch. *)
Definition Time : Type := Z.
(** A duration: an [int64] count of nanoseconds. *)
Definition Duration : Type := Z.

(** [t.UnixMilli()]: milliseconds since the epoch, rounded down. *)
Definition UnixMilli (t : Time) : Z := Int64.wrap (t / 1000000).
(** [time.UnixMilli(ms)]. *)
Definition FromUnixMilli (ms : Z) : Time := ms * 1000000.

Definition Before (t u : Time) : bool := t <? u.
Definition Sub (t u : Time) : Duration := Int64.saturate (t - u).
Definition Abs (d : Duration) : Duration :=
  if d <? 0 then (if d =? Int64.min then Int64.max else - d) else d.
Definition Nanoseconds (d : Duration) : Z := d.
Definition Add (t : Time) (d : Duration) : Time := t + d.

End time.

(** ** The Go standard library functions the code calls and the repository
       does not define *)

Record GoLib : Type := {
  math_Cos : float64 -> float64;
  time_Format : string -> time.Time -> string
}.

(** ** Samples *)

Record Sample : Type := mkSample {
  Time : time.Time;
  Temperature : option float64;
  PeakVelocityX : option float64;
  RMSVelocityX : option float64;
  PeakAccelerationX : option float64;
  RMSAccelerationX : option float64;
  PeakVelocityY : option float64;
  RMSVelocityY : option float64;
  PeakAccelerationY : option float64;
  RMSAccelerationY : option float64
}.

(** The fields of [Sample] that carry a [file] tag, in declaration order: the
    measurement channels. ([Time], field 0, carries none and is skipped by
    every loop over the fields.) *)
Inductive Channel : Type :=
  | ChTemperature
  | ChPeakVelocityX
  | ChRMSVelocityX
  | ChPeakAccelerationX
  | ChRMSAccelerationX
  | ChPeakVelocityY
  | ChRMSVelocityY
  | ChPeakAccelerationY
  | ChRMSAccelerationY.

#[global] Instance Channel_eq_dec : EqDecision Channel.
Proof. solve_decision. Defined.

Definition channels : list Channel :=
  [ChTemperature; ChPeakVelocityX; ChRMSVelocityX; ChPeakAccelerationX;
   ChRMSAccelerationX; ChPeakVelocityY; ChRMSVelocityY; ChPeakAccelerationY;
   ChRMSAccelerationY].

(** The [file] struct tag of a channel field. *)
Definition fileTag (c : Channel) : string :=
  match c with
  | ChTemperature => "temperature.csv"
  | ChPeakVelocityX => "peak_velocity_x.csv"
  | ChRMSVelocityX => "rms_velocity_x.csv"
  | ChPeakAccelerationX => "peak_acceleration_x.csv"
  | ChRMSAccelerationX => "rms_acceleration_x.csv"
  | ChPeakVelocityY => "peak_velocity_y.csv"
  | ChRMSVelocityY => "rms_velocity_y.csv"
  | ChPeakAccelerationY => "peak_acceleration_y.csv"
  | ChRMSAccelerationY => "rms_acceleration_y.csv"
  end.

(** [reflect.Value.Field]: the pointer a channel field holds ([None] is nil). *)
Definition Field (c : Channel) (sample : Sample) : option float64 :=
  match c with
  | ChTemperature => Temperature sample
  | ChPeakVelocityX => PeakVelocityX sample
  | ChRMSVelocityX => RMSVelocityX sample
  | ChPeakAccelerationX => PeakAccelerationX sample
  | ChRMSAccelerationX => RMSAccelerationX sample
  | ChPeakVelocityY => PeakVelocityY sample
  | ChRMSVelocityY => RMSVelocityY sample
  | ChPeakAccelerationY => PeakAccelerationY sample
  | ChRMSAccelerationY => RMSAccelerationY sample
  end.

(** [reflect.Value.Field(i).Set(&value)]. *)
Definition SetField (c : Channel) (value : float64) (s : Sample) : Sample :=
  match c with
  | ChTemperature =>
      mkSample (Time s) (Some value) (PeakVelocityX s) (RMSVelocityX s) (PeakAccelerationX s)
        (RMSAccelerationX s) (PeakVelocityY s) (RMSVelocityY s) (PeakAccelerationY s) (RMSAccelerationY s)
  | ChPeakVelocityX =>
      mkSample (Time s) (Temperature s) (Some value) (RMSVelocityX s) (PeakAccelerationX s)
        (RMSAccelerationX s) (PeakVelocityY s) (RMSVelocityY s) (PeakAccelerationY s) (RMSAccelerationY s)
  | ChRMSVelocityX =>
      mkSample (Time s) (Temperature s) (PeakVelocityX s) (Some value) (PeakAccelerationX s)
        (RMSAccelerationX s) (PeakVelocityY s) (RMSVelocityY s) (PeakAccelerationY s) (RMSAccelerationY s)
  | ChPeakAccelerationX =>
      mkSample (Time s) (Temperature s) (PeakVelocityX s) (RMSVelocityX s) (Some value)
        (RMSAccelerationX s) (PeakVelocityY s) (RMSVelocityY s) (PeakAccelerationY s) (RMSAccelerationY s)
  | ChRMSAccelerationX =>
      mkSample (Time s) (Temperature s) (PeakVelocityX s) (RMSVelocityX s) (PeakAccelerationX s)
        (Some value) (PeakVelocityY s) (RMSVelocityY s) (PeakAccelerationY s) (RMSAccelerationY s)
  | ChPeakVelocityY =>
      mkSample (Time s) (Temperature s) (PeakVelocityX s) (RMSVelocityX s) (PeakAccelerationX s)
        (RMSAccelerationX s) (Some value) (RMSVelocityY s) (PeakAccelerationY s) (RMSAccelerationY s)
  | ChRMSVelocityY =>
      mkSample (Time s) (Temperature s) (PeakVelocityX s) (RMSVelocityX s) (PeakAccelerationX s)
        (RMSAccelerationX s) (PeakVelocityY s) (Some value) (PeakAccelerationY s) (RMSAccelerationY s)
  | ChPeakAccelerationY =>
      mkSample (Time s) (Temperature s) (PeakVelocityX s) (RMSVelocityX s) (PeakAccelerationX s)
        (RMSAccelerationX s) (PeakVelocityY s) (RMSVelocityY s) (Some value) (RMSAccelerationY s)
  | ChRMSAccelerationY =>
      mkSample (Time s) (Temperature s) (PeakVelocityX s) (RMSVelocityX s) (PeakAccelerationX s)
        (RMSAccelerationX s) (PeakVelocityY s) (RMSVelocityY s) (PeakAccelerationY s) (Some value)
  end.

(** [&Sample{}] with its [Time] set: every channel nil. *)
Definition emptySample (t : time.Time) : Sample :=
  mkSample t None None None None None None None None None.

(** [SetValueByDataFile]: the first field whose [file] tag is the file name
    receives the value; [None] stands for the [false] the method returns when
    no field matches. *)
Definition SetValueByDataFile (sample : Sample) (targetFileName : string) (value : float64)
  : option Sample :=
  match find (fun c => String.eqb (fileTag c) targetFileName) channels with
  | Some c => Some (SetField c value sample)
  | None => None
  end.

(** ** Results: a value, a returned error, or a panic *)

(** The errors [InterpolateSample] returns (by their role; the code builds
    them with [fmt.Errorf]). *)
Inductive error : Type :=
  | UnknownDevice        (* no hardware data for "<id>" *)
  | InsufficientDensity. (* no interpolable hardware samples within timestamp <at> *)

Inductive panic : Type :=
  | IndexOutOfRange                 (* slice index out of range *)
  | NilSample                       (* reflection on a nil *Sample *)
  | NilDereference (c : Channel)    (* .Elem().Float() on a nil *float64 field *)
  | DivideByZero                    (* integer divide by zero *)
  | PopulateFailure.                (* panic(fmt.Errorf("unable to populate hardware data: ...")) *)

Inductive result (A : Type) : Type :=
  | Ok (a : A)
  | Err (e : error)
  | Panic (p : panic).

Arguments Ok {A} a.
Arguments Err {A} e.
Arguments Panic {A} p.

Definition bind {A B : Type} (r : result A) (k : A -> result B) : result B :=
  match r with
  | Ok a => k a
  | Err e => Err e
  | Panic p => Panic p
  end.

#[global] Instance result_bind : MBind result := fun A B k r => bind r k.

(** ** The sample store *)

(** [hardware map[string]map[int64]*Sample]. *)
Abbreviation Hardware := (gmap string (gmap Z Sample)).

Definition SampleCount (hardware : Hardware) : nat :=
  map_fold (fun _ samples count => (count + size samples)%nat) 0%nat hardware.

Definition HasSamples (hardware : Hardware) (hardwareId : string) : bool :=
  bool_decide (is_Some (hardware !! hardwareId)).

(** *** Ingestion *)

(** One CSV record after [strconv.ParseInt] and [strconv.ParseFloat]: [None]
    is a conversion error. *)
Record Row : Type := mkRow {
  rowTimestamp : option Z;
  rowValue : option float64
}.

(** One non-directory entry of the walk: the device is the name of its
    directory, the channel is named by the file. *)
Record DataFile : Type := mkDataFile {
  fileHardwareId : string;
  fileDataName : string;
  fileRows : list Row
}.

(** The body of the read loop for one record (lines 85 to 114). *)
Definition ingestRow (hardwareId sampleDataName : string) (row : Row) (hardware : Hardware)
  : result Hardware :=
  match rowTimestamp row with
  | None => Panic PopulateFailure
  | Some sampleTimestamp =>
      match rowValue row with
      | None => Panic PopulateFailure
      | Some sampleDataValue =>
          let samples := default ∅ (hardware !! hardwareId) in
          let sample :=
            default (emptySample (time.FromUnixMilli sampleTimestamp))
                    (samples !! sampleTimestamp) in
          match SetValueByDataFile sample sampleDataName sampleDataValue with
          | Some sample' => Ok (<[hardwareId := <[sampleTimestamp := sample']> samples]> hardware)
          | None => Panic PopulateFailure
          end
      end
  end.

Definition ingestFile (file : DataFile) (hardware : Hardware) : result Hardware :=
  foldl (fun acc row => hw ← acc; ingestRow (fileHardwareId file) (fileDataName file) row hw)
        (Ok hardware) (fileRows file).

(** [PopulateSamples], over the files in the order the walk visits them. Any
    error of the walk becomes a panic; no store is left behind. *)
Definition PopulateSamples (files : list DataFile) : result Hardware :=
  foldl (fun acc file => hw ← acc; ingestFile file hw) (Ok ∅) files.

(** ** Interpolation *)

(** The keys of one device, sorted ascending (lines 137 to 141). *)
Definition sortedTimestamps (samples : gmap Z Sample) : list Z :=
  merge_sort Z.le (map fst (map_to_list samples)).

(** The loop of lines 146 to 148, as a recursion over the consecutive pairs. *)
Fixpoint sumOfIntervals (timestamps : list Z) (sum : float64) : float64 :=
  match timestamps with
  | t :: rest =>
      match rest with
      | t' :: _ =>
          sumOfIntervals rest
            (Float64.add sum (Float64.sub (Float64.of_int64 t') (Float64.of_int64 t)))
      | [] => sum
      end
  | [] => sum
  end.

Definition averageInterval (timestamps : list Z) : Z :=
  Float64.to_int64
    (Float64.div (sumOfIntervals timestamps Float64.zero)
                 (Float64.of_int64 (Z.of_nat (length timestamps)))).

(** [sort.Search n f]: the smallest index in [0, n) at which [f] holds, [n]
    when there is none (its documented result for a monotone [f]). *)
Definition sort_Search (n : nat) (f : nat -> bool) : nat :=
  default n (find f (seq 0 n)).

(** The backward scan of lines 165 to 173. The index is decremented before the
    exit test, so the test [leftSampleIndex <= 0] is on the next index. *)
Fixpoint leftScan (timestamps : list Z) (samples : gmap Z Sample) (c : Channel)
    (leftSampleIndex : nat) : result (Z * Sample) :=
  match timestamps !! leftSampleIndex with
  | None => Panic IndexOutOfRange
  | Some leftTimestamp =>
      match samples !! leftTimestamp with
      | None => Panic NilSample
      | Some leftSample =>
          match leftSampleIndex with
          | S (S _ as next) =>
              if bool_decide (is_Some (Field c leftSample)) then Ok (leftTimestamp, leftSample)
              else leftScan timestamps samples c next
          | _ => Ok (leftTimestamp, leftSample)
          end
      end
  end.

(** The forward scan of lines 179 to 187. [steps] is the loop's variant: the
    number of increments after which [rightSampleIndex >= sampleCount-1]
    holds, so the exit test on the incremented index is [steps = 0]. *)
Fixpoint rightScanFrom (timestamps : list Z) (samples : gmap Z Sample) (c : Channel)
    (rightSampleIndex : nat) (steps : nat) : result (Z * Sample) :=
  match timestamps !! rightSampleIndex with
  | None => Panic IndexOutOfRange
  | Some rightTimestamp =>
      match samples !! rightTimestamp with
      | None => Panic NilSample
      | Some rightSample =>
          match steps with
          | S steps' =>
              if bool_decide (is_Some (Field c rightSample)) then Ok (rightTimestamp, rightSample)
              else rightScanFrom timestamps samples c (S rightSampleIndex) steps'
          | O => Ok (rightTimestamp, rightSample)
          end
      end
  end.

Definition rightScan (timestamps : list Z) (samples : gmap Z Sample) (c : Channel)
    (sampleCount atSampleIndex : nat) : result (Z * Sample) :=
  rightScanFrom timestamps samples c atSampleIndex (sampleCount - 1 - (atSampleIndex + 1)).

(** The arithmetic the blend of lines 192 to 194 is written in. The code
    instantiates it with binary64 ([float64Arith]); [realArith] reads the same
    expression in exact real arithmetic. *)
Record Arith (F : Type) : Type := mkArith {
  a_add : F -> F -> F;
  a_sub : F -> F -> F;
  a_mul : F -> F -> F;
  a_div : F -> F -> F;
  a_of_int64 : Z -> F;
  a_half : F;
  a_one : F;
  a_Pi : F;
  a_Cos : F -> F
}.

Arguments a_add {F} _. Arguments a_sub {F} _. Arguments a_mul {F} _.
Arguments a_div {F} _. Arguments a_of_int64 {F} _. Arguments a_half {F} _.
Arguments a_one {F} _. Arguments a_Pi {F} _. Arguments a_Cos {F} _.

Definition float64Arith (lib : GoLib) : Arith float64 :=
  mkArith float64 Float64.add Float64.sub Float64.mul Float64.div Float64.of_int64
          Float64.half Float64.one Float64.Pi (math_Cos lib).


(** The raised-cosine weight, [interval] in the code, from the blend position
    [timestampInterval]. *)
Definition easeWeight {F : Type} (A : Arith F) (timestampInterval : F) : F :=
  a_mul A (a_half A) (a_sub A (a_one A) (a_Cos A (a_mul A (a_Pi A) timestampInterval))).

Definition mix {F : Type} (A : Arith F) (leftSampleValue rightSampleValue interval : F) : F :=
  a_add A (a_mul A leftSampleValue (a_sub A (a_one A) interval))
          (a_mul A rightSampleValue interval).

(** Lines 192 to 194. *)
Definition blend {F : Type} (A : Arith F) (atTimestamp leftTimestamp rightTimestamp : Z)
    (leftSampleValue rightSampleValue : F) : F :=
  let timestampInterval :=
    a_div A (a_of_int64 A atTimestamp)
            (a_add A (a_of_int64 A leftTimestamp) (a_of_int64 A rightTimestamp)) in
  let interval := easeWeight A timestampInterval in
  mix A leftSampleValue rightSampleValue interval.

(** One turn of the loop over the fields (lines 161 to 196), up to the value
    stored in the interpolated sample. *)
Definition interpolateField (lib : GoLib) (timestamps : list Z) (samples : gmap Z Sample)
    (sampleCount : nat) (atTimestamp : Z) (atSampleIndex : nat) (c : Channel)
  : result float64 :=
  '(leftTimestamp, leftSample) ← leftScan timestamps samples c atSampleIndex;
  '(rightTimestamp, rightSample) ← rightScan timestamps samples c sampleCount atSampleIndex;
  match Field c leftSample with
  | None => Panic (NilDereference c)
  | Some leftSampleValue =>
      match Field c rightSample with
      | None => Panic (NilDereference c)
      | Some rightSampleValue =>
          Ok (blend (float64Arith lib) atTimestamp leftTimestamp rightTimestamp
                    leftSampleValue rightSampleValue)
      end
  end.

(** The test of line 151, with its [int64] additions. *)
Definition outsideDensityBound (first last averageInterval atTimestamp : Z) : bool :=
  (atTimestamp <? Int64.add first averageInterval)
  || (Int64.sub last averageInterval <? atTimestamp).

(** The anchor of line 155: [sort.Search] over the sorted timestamps. *)
Definition anchorIndex (timestamps : list Z) (sampleCount : nat) (atTimestamp : Z) : nat :=
  sort_Search sampleCount
    (fun index => bool_decide (is_Some (timestamps !! index))
                  && (atTimestamp <=? default 0 (timestamps !! index))).

(** The end of one turn of the loop over the fields (line 195): the value of
    the field, when its computation returns one, is stored in the sample under
    construction; a panic ends the loop. *)
Definition setInterpolated (atSampleValue : Channel -> result float64)
    (acc : result Sample) (c : Channel) : result Sample :=
  interpolatedSample ← acc;
  value ← atSampleValue c;
  Ok (SetField c value interpolatedSample).

(** The loop of lines 160 to 197 over the channel fields, in their order. *)
Definition interpolateFields (atSampleValue : Channel -> result float64) (at_ : time.Time)
  : result Sample :=
  foldl (setInterpolated atSampleValue) (Ok (emptySample at_)) channels.

Definition InterpolateSample (lib : GoLib) (hardware : Hardware) (hardwareId : string)
    (at_ : time.Time) : result Sample :=
  match hardware !! hardwareId with
  | None => Err UnknownDevice
  | Some samples =>
      let sampleCount := size samples in
      let atTimestamp := time.UnixMilli at_ in
      let timestamps := sortedTimestamps samples in
      let averageInterval := averageInterval timestamps in
      match timestamps !! 0%nat with
      | None => Panic IndexOutOfRange
      | Some first =>
          match timestamps !! (sampleCount - 1)%nat with
          | None => Panic IndexOutOfRange
          | Some last =>
              if outsideDensityBound first last averageInterval atTimestamp
              then Err InsufficientDensity
              else
                let atSampleIndex := anchorIndex timestamps sampleCount atTimestamp in
                interpolateFields
                  (interpolateField lib timestamps samples sampleCount atTimestamp atSampleIndex)
                  at_
          end
      end
  end.

(** ** The handler *)

Record TabulatedHardwareRequestData : Type := mkRequestData {
  Id : string;
  From : time.Time;
  To : time.Time;
  Count : Z
}.

(** A request as [Handle] sees it: [Body] is [None] when [io.ReadAll] or
    [json.Unmarshal] fails. *)
Record Request : Type := mkRequest {
  URL_Path : string;
  Method : string;
  Body : option TabulatedHardwareRequestData
}.

Inductive ResponseBody : Type :=
  | NoBody
  | Welcome
  | Tabulated (tabulatedHardware : gmap string Sample).

(** What a call of [Handle] leaves: the status and body written, or a panic. *)
Inductive Outcome : Type :=
  | Responded (status : Z) (body : ResponseBody)
  | Panicked (p : panic).

Definition StatusOK : Z := 200.
Definition StatusInternalServerError : Z := 500.

Definition layout : string := "January _2, 2006 _3:04:05.999PM".

(** The post statement of the loop of line 41: the step is computed, with its
    integer division, and [timestamp.Add] returns a new instant that the
    statement drops. [None] is the division by zero. *)
Definition postStatement (requestData : TabulatedHardwareRequestData) (timestamp : time.Time)
  : option time.Time :=
  if Count requestData =? 0 then None
  else Some (time.Add timestamp
               (Z.quot (time.Nanoseconds (time.Abs (time.Sub (To requestData) (From requestData))))
                       (Count requestData))).

(** One turn of the loop of lines 41 to 48, from the condition to the post
    statement: the loop goes on with a timestamp and a table, or it is left
    (normally, by a return after an error, or by a panic). *)
Inductive LoopStep : Type :=
  | Continue (timestamp : time.Time) (tabulatedHardware : gmap string Sample)
  | Exit (r : result (gmap string Sample)).

Definition loopIteration (lib : GoLib) (hardware : Hardware)
    (requestData : TabulatedHardwareRequestData)
    (timestamp : time.Time) (tabulatedHardware : gmap string Sample) : LoopStep :=
  if time.Before timestamp (To requestData) then
    match InterpolateSample lib hardware (Id requestData) timestamp with
    | Err e => Exit (Err e)
    | Panic p => Exit (Panic p)
    | Ok sample =>
        let tabulatedHardware' :=
          <[time_Format lib layout timestamp := sample]> tabulatedHardware in
        match postStatement requestData timestamp with
        | None => Exit (Panic DivideByZero)
        | Some _ => Continue timestamp tabulatedHardware'
        end
    end
  else Exit (Ok tabulatedHardware).

(** The loop. [fuel] bounds the number of turns; [None] means the loop is
    still running when it is used up. *)
Fixpoint tabulate (lib : GoLib) (hardware : Hardware) (requestData : TabulatedHardwareRequestData)
    (fuel : nat) (timestamp : time.Time) (tabulatedHardware : gmap string Sample)
  : option (result (gmap string Sample)) :=
  match fuel with
  | O => None
  | S fuel' =>
      match loopIteration lib hardware requestData timestamp tabulatedHardware with
      | Exit r => Some r
      | Continue timestamp' tabulatedHardware' =>
          tabulate lib hardware requestData fuel' timestamp' tabulatedHardware'
      end
  end.

(** The state of the loop after [turns] turns, [None] once it has been left. *)
Fixpoint loopState (lib : GoLib) (hardware : Hardware) (requestData : TabulatedHardwareRequestData)
    (turns : nat) : option (time.Time * gmap string Sample) :=
  match turns with
  | O => Some (From requestData, ∅)
  | S turns' =>
      match loopState lib hardware requestData turns' with
      | Some (timestamp, tabulatedHardware) =>
          match loopIteration lib hardware requestData timestamp tabulatedHardware with
          | Continue timestamp' tabulatedHardware' => Some (timestamp', tabulatedHardware')
          | Exit _ => None
          end
      | None => None
      end
  end.

(** [json.Marshal] refuses a value that is not finite. *)
Definition marshalable (tabulatedHardware : gmap string Sample) : bool :=
  forallb (fun entry =>
             forallb (fun c => from_option Float64.is_finite true (Field c (snd entry))) channels)
          (map_to_list tabulatedHardware).

Definition Handle (lib : GoLib) (hardware : Hardware) (fuel : nat) (request : Request)
  : option Outcome :=
  if String.eqb (URL_Path request) "/api/tabulated_hardware" then
    if String.eqb (Method request) "POST" then
      match Body request with
      | None => Some (Responded StatusInternalServerError NoBody)
      | Some requestData =>
          if negb (HasSamples hardware (Id requestData))
          then Some (Responded StatusInternalServerError NoBody)
          else
            match tabulate lib hardware requestData fuel (From requestData) ∅ with
            | None => None
            | Some (Err _) => Some (Responded StatusInternalServerError NoBody)
            | Some (Panic p) => Some (Panicked p)
            | Some (Ok tabulatedHardware) =>
                if marshalable tabulatedHardware
                then Some (Responded StatusOK (Tabulated tabulatedHardware))
                else Some (Responded StatusInternalServerError NoBody)
            end
      end
    else Some (Responded StatusOK NoBody)
  else Some (Responded StatusOK Welcome).

(** ** Vocabulary of the statements *)

(** Millisecond timestamps on which the [int64] and [float64] computations of
    the density bound are exact (more than 70 000 years around the epoch). *)
Definition smallTimestamp (t : Z) : Prop := - 2 ^ 51 <= t <= 2 ^ 51.

(** The devices the statements range over: at least one sample, every
    timestamp small. *)
Definition wellFormedDevice (samples : gmap Z Sample) : Prop :=
  samples <> ∅ /\ forall t, is_Some (samples !! t) -> smallTimestamp t.

(** [timestamps] is the slice [t[0..n-1]] of a device: its keys, sorted and
    distinct. *)
Definition timestampsOf (samples : gmap Z Sample) (timestamps : list Z) : Prop :=
  StronglySorted Z.lt timestamps /\ forall t, t ∈ timestamps <-> is_Some (samples !! t).

(** Every sample of the device has a reading for every channel. *)
Definition denseDevice (samples : gmap Z Sample) : bool :=
  forallb (fun entry => forallb (fun c => bool_decide (is_Some (Field c (snd entry)))) channels)
          (map_to_list samples).

(** ** Example data *)

Definition atMillis (t : Z) : time.Time := time.FromUnixMilli t.

(** The rows of one channel file: reading [value] at each timestamp. *)
Definition rowsAt (timestamps : list Z) (value : float64) : list Row :=
  map (fun t => mkRow (Some t) (Some value)) timestamps.

Definition fiveTimestamps : list Z := [0; 1000; 2000; 3000; 4000].

(** 0.3 as a binary64 number: 0x3FD3333333333333. *)
Definition threeTenths : float64 := S754_finite false 5404319552844595 (-54).
(** The binary64 number below it, 0.29999999999999993. *)
Definition belowThreeTenths : float64 := S754_finite false 5404319552844594 (-54).

(** Device fan1: every channel file has a row at each of the five timestamps. *)
Definition fan1Files : list DataFile :=
  map (fun c => mkDataFile "fan1" (fileTag c) (rowsAt fiveTimestamps threeTenths)) channels.

Definition denseSample (t : Z) (v : float64) : Sample :=
  mkSample (time.FromUnixMilli t) (Some v) (Some v) (Some v) (Some v) (Some v)
           (Some v) (Some v) (Some v) (Some v).

Definition fan1Samples : gmap Z Sample :=
  list_to_map (map (fun t => (t, denseSample t threeTenths)) fiveTimestamps).

Definition fan1 : Hardware := {["fan1" := fan1Samples]}.

(** Device fan2: only temperature.csv exists. *)
Definition fan2Files : list DataFile :=
  [mkDataFile "fan2" "temperature.csv" (rowsAt fiveTimestamps threeTenths)].

Definition fan2Samples : gmap Z Sample :=
  list_to_map (map (fun t => (t, SetField ChTemperature threeTenths
                                   (emptySample (time.FromUnixMilli t)))) fiveTimestamps).

Definition fan2 : Hardware := {["fan2" := fan2Samples]}.

(** Device fan3: as fan1, but temperature.csv has no row at 1000. *)
Definition fan3Files : list DataFile :=
  mkDataFile "fan3" "temperature.csv" (rowsAt [0; 2000; 3000; 4000] threeTenths)
  :: map (fun c => mkDataFile "fan3" (fileTag c) (rowsAt fiveTimestamps threeTenths))
         (tail channels).

Definition gapSample (t : Z) (v : float64) : Sample :=
  mkSample (time.FromUnixMilli t) None (Some v) (Some v) (Some v) (Some v)
           (Some v) (Some v) (Some v) (Some v).

Definition fan3Samples : gmap Z Sample :=
  <[1000 := gapSample 1000 threeTenths]> fan1Samples.

Definition fan3 : Hardware := {["fan3" := fan3Samples]}.

(** Device fan4: as fan1, but the rows of temperature.csv read NaN. *)
Definition fan4Files : list DataFile :=
  mkDataFile "fan4" "temperature.csv" (rowsAt fiveTimestamps Float64.NaN)
  :: map (fun c => mkDataFile "fan4" (fileTag c) (rowsAt fiveTimestamps threeTenths))
         (tail channels).

(** Device solo: one sample, at 1000, with a row in every channel file. *)
Definition soloFiles : list DataFile :=
  map (fun c => mkDataFile "solo" (fileTag c) (rowsAt [1000] threeTenths)) channels.

Definition solo : Hardware := {["solo" := {[1000 := denseSample 1000 threeTenths]}]}.

(** An instance of the library parameters for the statements that need a
    closed one. Its cosine returns, at every argument, the binary64 number
    nearest to the cosine of [math.Pi/2] (6.123233995736766e-17), the one
    argument those statements evaluate it at. *)
Definition cosHalfPi : float64 := S754_finite false 4967757600021511 (-106).

Definition libAtHalfPi : GoLib :=
  {| math_Cos := fun _ => cosHalfPi; time_Format := fun _ t => "" |}.

(** The request for [count] samples of a device between two instants given in
    milliseconds. *)
Definition tabulationData (hardwareId : string) (from to count : Z)
  : TabulatedHardwareRequestData :=
  mkRequestData hardwareId (atMillis from) (atMillis to) count.

Definition tabulationRequest (hardwareId : string) (from to count : Z) : Request :=
  mkRequest "/api/tabulated_hardware" "POST" (Some (tabulationData hardwareId from to count)).

(** ** Ingestion as a sequence of writes *)

(** One row with the device and the file it comes from. *)
Definition RowWrite : Type := (string * string * Row)%type.

(** The rows of the walk in the order [PopulateSamples] reads them. *)
Definition rowsOf (files : list DataFile) : list RowWrite :=
  flat_map (fun file => map (fun row => (fileHardwareId file, fileDataName file, row))
                            (fileRows file)) files.

Definition ingestWrite (acc : result Hardware) (w : RowWrite) : result Hardware :=
  hw ← acc; ingestRow w.1.1 w.1.2 w.2 hw.

(** The device+timestamp+channel triplet a row writes to (the channel by the
    name of its file). *)
Definition writeKey (w : RowWrite) : string * option Z * string :=
  (w.1.1, rowTimestamp w.2, w.1.2).

(** Two channel files of one device with a row at the same timestamp. *)
Definition twoChannelFiles : list DataFile :=
  [mkDataFile "fan1" "temperature.csv" [mkRow (Some 1000) (Some threeTenths)];
   mkDataFile "fan1" "peak_velocity_x.csv" [mkRow (Some 1000) (Some belowThreeTenths)]].

Definition twoChannelStore : Hardware :=
  {["fan1" := {[1000 := SetField ChPeakVelocityX belowThreeTenths
                          (SetField ChTemperature threeTenths (emptySample (atMillis 1000)))]}]}.

(** One file with two rows for the same timestamp. *)
Definition rewrittenFiles : list DataFile :=
  [mkDataFile "fan1" "temperature.csv"
     [mkRow (Some 1000) (Some threeTenths); mkRow (Some 1000) (Some belowThreeTenths)]].

Definition rewrittenStore : Hardware :=
  {["fan1" := {[1000 := SetField ChTemperature belowThreeTenths
                          (emptySample (atMillis 1000))]}]}.

(** * Facts about the model *)

(** ** Binary64 arithmetic on integers

    An integer of magnitude below [2^53] is a binary64 number, and the sums,
    differences and truncated quotients the code forms from such integers are
    computed without rounding error. *)

Module Float64Facts.
Import Float64.

Lemma digits2_pos_log2 p : Zpos (digits2_pos p) = Z.log2 (Zpos p) + 1.
Proof.
  assert (H : digits2_pos p = Pos.size p) by (induction p; simpl; congruence).
  rewrite H. destruct p; simpl; lia.
Qed.

Lemma iter_pos_nat {A} (f : A -> A) p x : SpecFloat.iter_pos f p x = Nat.iter (Pos.to_nat p) f x.
Proof.
  revert x. induction p as [p IH|p IH|]; intros x; cbn [SpecFloat.iter_pos].
  - rewrite !IH, Pos2Nat.inj_xI. 
    replace (S (2 * Pos.to_nat p))%nat with (Pos.to_nat p + S (Pos.to_nat p))%nat by lia.
    rewrite Nat.iter_add. f_equal. now rewrite Nat.iter_succ_r.
  - rewrite !IH, Pos2Nat.inj_xO.
    replace (2 * Pos.to_nat p)%nat with (Pos.to_nat p + Pos.to_nat p)%nat by lia.
    now rewrite Nat.iter_add.
  - reflexivity.
Qed.

Lemma shr_1_exact m : shr_1 (Build_shr_record (2 * m) false false) = Build_shr_record m false false.
Proof. destruct m; reflexivity. Qed.

Lemma shr_exact_nat n m :
  Nat.iter n shr_1 (Build_shr_record (m * 2 ^ Z.of_nat n) false false) = Build_shr_record m false false.
Proof.
  revert m. induction n as [|n IH]; intros m.
  - simpl. f_equal. lia.
  - rewrite Nat.iter_succ_r. rewrite Nat2Z.inj_succ, Z.pow_succ_r by lia.
    replace (m * (2 * 2 ^ Z.of_nat n)) with (2 * (m * 2 ^ Z.of_nat n)) by lia.
    rewrite shr_1_exact. apply IH.
Qed.

Lemma shr_exact m e j : 0 <= j ->
  shr (Build_shr_record (m * 2 ^ j) false false) e j = (Build_shr_record m false false, e + j).
Proof.
  intros Hj. destruct j as [|p|p]; try lia.
  - simpl. rewrite Z.mul_1_r, Z.add_0_r. reflexivity.
  - unfold shr. rewrite iter_pos_nat. 
    rewrite <- (positive_nat_Z p) at 1. now rewrite shr_exact_nat.
Qed.

Lemma iter_xO_spec m d : Zpos (Pos.iter xO m d) = Zpos m * 2 ^ Zpos d.
Proof.
  change (Pos.iter xO m d) with (shift_pos d m).
  rewrite shift_pos_correct, Zpower_pos_powerRZ || rewrite shift_pos_correct.
  rewrite Z.pow_pos_fold || idtac. lia.
Qed.

Lemma shl_align_spec mx ex ex' :
  (ex' < ex /\ shl_align mx ex ex' = (Z.to_pos (Zpos mx * 2 ^ (ex - ex')), ex')) \/
  (ex <= ex' /\ shl_align mx ex ex' = (mx, ex)).
Proof.
  unfold shl_align. destruct (ex' - ex) as [|d|d] eqn:E.
  - right. split; [lia|reflexivity].
  - right. split; [lia|reflexivity].
  - left. split; [lia|]. f_equal.
    replace (ex - ex') with (Zpos d) by lia.
    rewrite <- iter_xO_spec. reflexivity.
Qed.

Lemma fexp_small e : -1021 <= e -> fexp prec emax e = e - 53.
Proof. unfold fexp, emin, prec, emax. lia. Qed.

Lemma log2_bounds z : 0 < z < 2 ^ 53 -> 0 <= Z.log2 z <= 52.
Proof.
  intros [H0 H1]. split; [apply Z.log2_nonneg|].
  assert (Z.log2 z < 53) by (apply Z.log2_lt_pow2; lia). lia.
Qed.

Lemma binary_round_int s (m : positive) k z :
  0 <= k -> Zpos m = z * 2 ^ k -> 0 < z < 2 ^ 53 ->
  binary_round prec emax s m (- k) =
  S754_finite s (Z.to_pos (z * 2 ^ (52 - Z.log2 z))) (Z.log2 z - 52).
Proof.
  intros Hk Hm Hz.
  pose proof (log2_bounds z Hz) as HL.
  assert (Hd : Zpos (digits2_pos m) = Z.log2 z + k + 1).
  { rewrite digits2_pos_log2, Hm, Z.log2_mul_pow2 by lia. lia. }
  unfold binary_round. rewrite Hd.
  replace (Z.log2 z + k + 1 + - k) with (Z.log2 z + 1) by lia.
  rewrite fexp_small by lia.
  replace (Z.log2 z + 1 - 53) with (Z.log2 z - 52) by lia.
  set (M := z * 2 ^ (52 - Z.log2 z)).
  assert (HM : 2 ^ 52 <= M < 2 ^ 53).
  { unfold M. pose proof (Z.log2_spec z ltac:(lia)) as [Hlo Hhi].
    replace (2 ^ 52) with (2 ^ Z.log2 z * 2 ^ (52 - Z.log2 z))
      by (rewrite <- Z.pow_add_r by lia; f_equal; lia).
    replace (2 ^ 53) with (2 ^ Z.succ (Z.log2 z) * 2 ^ (52 - Z.log2 z))
      by (rewrite <- Z.pow_add_r by lia; f_equal; lia).
    assert (0 < 2 ^ (52 - Z.log2 z)) by (apply Z.pow_pos_nonneg; lia).
    nia. }
  assert (HlM : Z.log2 M = 52) by (apply Z.log2_unique; lia).
  assert (Haux : binary_round_aux prec emax s M (Z.log2 z - 52) loc_Exact
                 = S754_finite s (Z.to_pos M) (Z.log2 z - 52)).
  { unfold binary_round_aux, shr_fexp.
    assert (HdM : Zdigits2 M = 53).
    { destruct M as [|pM|pM] eqn:EM; try lia. simpl. rewrite digits2_pos_log2. rewrite HlM. reflexivity. }
    rewrite HdM. rewrite fexp_small by lia.
    replace (53 + (Z.log2 z - 52) - 53 - (Z.log2 z - 52)) with 0 by lia.
    cbn [shr shr_record_of_loc shr_m loc_of_shr_record round_nearest_even].
    rewrite HdM. rewrite fexp_small by lia.
    replace (53 + (Z.log2 z - 52) - 53 - (Z.log2 z - 52)) with 0 by lia.
    cbn [shr shr_record_of_loc shr_m].
    destruct M as [|pM|pM] eqn:EM; try lia.
    replace (Z.log2 z - 52 <=? emax - prec) with true
      by (symmetry; apply Z.leb_le; unfold emax, prec; lia).
    reflexivity. }
  destruct (shl_align_spec m (- k) (Z.log2 z - 52)) as [[Hlt ->]|[Hle ->]].
  - replace (Z.pos (Z.to_pos (Z.pos m * 2 ^ (- k - (Z.log2 z - 52))))) with M; [exact Haux|].
    rewrite Z2Pos.id.
    + unfold M. rewrite Hm, <- Z.mul_assoc, <- Z.pow_add_r by lia. do 2 f_equal. lia.
    + apply Z.mul_pos_pos; [lia|apply Z.pow_pos_nonneg; lia].
  - (* mantissa too long: the rounding shifts the zero bits out *)
    unfold binary_round_aux, shr_fexp.
    cbn [Zdigits2]. rewrite Hd.
    replace (Z.log2 z + k + 1 + - k) with (Z.log2 z + 1) by lia.
    rewrite fexp_small by lia.
    cbn [shr_record_of_loc].
    replace (Z.pos m) with (M * 2 ^ (Z.log2 z + 1 - 53 - - k)).
    2:{ unfold M. rewrite Hm, <- Z.mul_assoc, <- Z.pow_add_r by lia. do 2 f_equal. lia. }
    rewrite shr_exact by lia.
    cbn [shr_m loc_of_shr_record round_nearest_even].
    replace (- k + (Z.log2 z + 1 - 53 - - k)) with (Z.log2 z - 52) by lia.
    unfold binary_round_aux, shr_fexp in Haux.
    cbn [shr shr_record_of_loc shr_m loc_of_shr_record round_nearest_even] in Haux.
    revert Haux.
    assert (HdM : Zdigits2 M = 53).
    { destruct M as [|pM|pM] eqn:EM; try lia. simpl. rewrite digits2_pos_log2. rewrite HlM. reflexivity. }
    rewrite HdM. rewrite fexp_small by lia.
    replace (53 + (Z.log2 z - 52) - 53 - (Z.log2 z - 52)) with 0 by lia.
    cbn [shr shr_record_of_loc shr_m loc_of_shr_record round_nearest_even].
    rewrite HdM. rewrite fexp_small by lia.
    replace (53 + (Z.log2 z - 52) - 53 - (Z.log2 z - 52)) with 0 by lia.
    cbn [shr shr_record_of_loc shr_m]. trivial.
Qed.

Definition canon (z : Z) : spec_float :=
  match z with
  | Z0 => S754_zero false
  | Zpos _ => S754_finite false (Z.to_pos (z * 2 ^ (52 - Z.log2 z))) (Z.log2 z - 52)
  | Zneg _ => S754_finite true (Z.to_pos (- z * 2 ^ (52 - Z.log2 (- z)))) (Z.log2 (- z) - 52)
  end.

Lemma normalize_int c k :
  0 <= k -> - 2 ^ 53 < c < 2 ^ 53 ->
  binary_normalize prec emax (c * 2 ^ k) (- k) false = canon c.
Proof.
  intros Hk Hc.
  assert (Hp : 0 < 2 ^ k) by (apply Z.pow_pos_nonneg; lia).
  destruct c as [|p|p].
  - reflexivity.
  - destruct (Z.pos p * 2 ^ k) as [|q|q] eqn:E; try nia.
    cbn [binary_normalize canon]. apply binary_round_int; lia.
  - destruct (Z.neg p * 2 ^ k) as [|q|q] eqn:E; try nia.
    cbn [binary_normalize canon]. apply binary_round_int; lia.
Qed.

Lemma of_int64_canon c : - 2 ^ 53 < c < 2 ^ 53 -> of_int64 c = canon c.
Proof.
  intros Hc. unfold of_int64.
  rewrite <- (normalize_int c 0) by lia. f_equal. lia.
Qed.

(* value of a canonical mantissa aligned to a smaller exponent *)
Lemma canon_align_pos z ez : 0 < z < 2 ^ 53 -> ez <= Z.log2 z - 52 ->
  Zpos (fst (shl_align (Z.to_pos (z * 2 ^ (52 - Z.log2 z))) (Z.log2 z - 52) ez)) = z * 2 ^ (- ez).
Proof.
  intros Hz He. pose proof (log2_bounds z Hz) as HL.
  assert (0 < 2 ^ (52 - Z.log2 z)) by (apply Z.pow_pos_nonneg; lia).
  destruct (shl_align_spec (Z.to_pos (z * 2 ^ (52 - Z.log2 z))) (Z.log2 z - 52) ez) as [[Hlt ->]|[Hle ->]];
    cbn [fst].
  - assert (0 < 2 ^ (Z.log2 z - 52 - ez)) by (apply Z.pow_pos_nonneg; lia).
    rewrite !Z2Pos.id by nia.
    rewrite <- Z.mul_assoc, <- Z.pow_add_r by lia. do 2 f_equal. lia.
  - rewrite Z2Pos.id by nia. do 2 f_equal. lia.
Qed.

Definition fexpo (x : spec_float) : Z :=
  match x with S754_finite _ _ e => e | _ => 0 end.

Lemma canon_aligned c ez :
  c <> 0 -> - 2 ^ 53 < c < 2 ^ 53 -> ez <= fexpo (canon c) ->
  match canon c with
  | S754_finite s m e => cond_Zopp s (Zpos (fst (shl_align m e ez))) = c * 2 ^ (- ez)
  | _ => False
  end.
Proof.
  intros Hc Hr He. destruct c as [|p|p]; try lia; cbn [canon fexpo cond_Zopp] in *.
  - apply canon_align_pos; lia.
  - change (- Z.neg p) with (Z.pos p) in *. rewrite canon_align_pos by lia. lia.
Qed.

Lemma canon_expo_nonpos c : - 2 ^ 53 < c < 2 ^ 53 -> fexpo (canon c) <= 0.
Proof.
  intros Hr. destruct c as [|p|p]; cbn [canon fexpo]; try lia.
  - pose proof (log2_bounds (Z.pos p)). lia.
  - change (- Z.neg p) with (Z.pos p). pose proof (log2_bounds (Z.pos p)). lia.
Qed.


Lemma SFadd_canon a b :
  - 2 ^ 53 < a < 2 ^ 53 -> - 2 ^ 53 < b < 2 ^ 53 -> - 2 ^ 53 < a + b < 2 ^ 53 ->
  SFadd prec emax (canon a) (canon b) = canon (a + b).
Proof.
  intros Ha Hb Hab.
  destruct (Z.eq_dec a 0) as [->|Ha0].
  { destruct b; reflexivity. }
  destruct (Z.eq_dec b 0) as [->|Hb0].
  { rewrite Z.add_0_r. destruct a; reflexivity. }
  pose proof (canon_expo_nonpos a Ha) as Hea. pose proof (canon_expo_nonpos b Hb) as Heb.
  pose proof (canon_aligned a (Z.min (fexpo (canon a)) (fexpo (canon b))) Ha0 Ha ltac:(lia)) as HA.
  pose proof (canon_aligned b (Z.min (fexpo (canon a)) (fexpo (canon b))) Hb0 Hb ltac:(lia)) as HB.
  destruct (canon a) as [| | |sa ma ea] eqn:Ea; try contradiction.
  destruct (canon b) as [| | |sb mb eb] eqn:Eb; try contradiction.
  cbn [fexpo] in *. cbn [SFadd]. rewrite HA, HB.
  rewrite <- Z.mul_add_distr_r.
  rewrite <- (Z.opp_involutive (Z.min ea eb)) at 2.
  apply normalize_int; lia.
Qed.

Lemma SFsub_canon a b :
  - 2 ^ 53 < a < 2 ^ 53 -> - 2 ^ 53 < b < 2 ^ 53 -> - 2 ^ 53 < a - b < 2 ^ 53 ->
  SFsub prec emax (canon a) (canon b) = canon (a - b).
Proof.
  intros Ha Hb Hab.
  destruct (Z.eq_dec a 0) as [->|Ha0].
  { destruct b; reflexivity. }
  destruct (Z.eq_dec b 0) as [->|Hb0].
  { rewrite Z.sub_0_r. destruct a; reflexivity. }
  pose proof (canon_expo_nonpos a Ha) as Hea. pose proof (canon_expo_nonpos b Hb) as Heb.
  pose proof (canon_aligned a (Z.min (fexpo (canon a)) (fexpo (canon b))) Ha0 Ha ltac:(lia)) as HA.
  pose proof (canon_aligned b (Z.min (fexpo (canon a)) (fexpo (canon b))) Hb0 Hb ltac:(lia)) as HB.
  destruct (canon a) as [| | |sa ma ea] eqn:Ea; try contradiction.
  destruct (canon b) as [| | |sb mb eb] eqn:Eb; try contradiction.
  cbn [fexpo] in *. cbn [SFsub]. rewrite HA, HB.
  rewrite <- Z.mul_sub_distr_r.
  rewrite <- (Z.opp_involutive (Z.min ea eb)) at 2.
  apply normalize_int; lia.
Qed.

Definition finish (s : bool) (m e : Z) : spec_float :=
  if m =? 2 ^ 53 then S754_finite s (Z.to_pos (2 ^ 52)) (e + 1)
  else S754_finite s (Z.to_pos m) e.

Lemma Zdigits2_log2 m : 0 < m -> Zdigits2 m = Z.log2 m + 1.
Proof. destruct m as [|p|p]; try lia. intros _. apply digits2_pos_log2. Qed.

Lemma post_shift s m e :
  2 ^ 52 <= m <= 2 ^ 53 -> -1000 <= e <= 900 ->
  (let '(mrs, e') := shr_fexp prec emax m e loc_Exact in
   match shr_m mrs with
   | Z0 => S754_zero s
   | Zpos m' => if e' <=? emax - prec then S754_finite s m' e' else S754_infinity s
   | Zneg _ => S754_nan
   end) = finish s m e.
Proof.
  intros Hm He. unfold shr_fexp, finish.
  destruct (Z.eqb_spec m (2 ^ 53)) as [->|Hne].
  - rewrite Zdigits2_log2 by lia. change (Z.log2 (2 ^ 53) + 1) with 54.
    rewrite fexp_small by lia. replace (54 + e - 53 - e) with 1 by lia.
    cbn [shr shr_record_of_loc SpecFloat.iter_pos]. change (2 ^ 53) with (Z.pos (xO (Z.to_pos (2 ^ 52)))).
    cbn [shr_1 shr_m orb].
    replace (e + 1 <=? emax - prec) with true
      by (symmetry; apply Z.leb_le; unfold emax, prec; lia).
    reflexivity.
  - assert (Z.log2 m = 52) by (apply Z.log2_unique; lia).
    rewrite Zdigits2_log2 by lia. rewrite fexp_small by lia.
    replace (Z.log2 m + 1 + e - 53 - e) with 0 by lia.
    cbn [shr shr_record_of_loc shr_m].
    destruct m as [|p|p]; try lia.
    replace (e <=? emax - prec) with true
      by (symmetry; apply Z.leb_le; unfold emax, prec; lia).
    reflexivity.
Qed.

Lemma loc_of_record_of_loc m l : loc_of_shr_record (shr_record_of_loc m l) = l.
Proof. destruct l as [|[| |]]; reflexivity. Qed.

Lemma shr_m_record_of_loc m l : shr_m (shr_record_of_loc m l) = m.
Proof. destruct l as [|[| |]]; reflexivity. Qed.

Lemma rne_cases m l : round_nearest_even m l = m \/ round_nearest_even m l = m + 1.
Proof. destruct l as [|[| |]]; cbn; try destruct (Z.even m); auto. Qed.

Lemma bra53 s q e loc :
  2 ^ 52 <= q < 2 ^ 53 -> -1000 <= e <= 900 ->
  exists m1, (m1 = q \/ m1 = q + 1) /\
    binary_round_aux prec emax s q e loc = finish s m1 e.
Proof.
  intros Hq He. exists (round_nearest_even q loc). split; [apply rne_cases|].
  unfold binary_round_aux. 
  assert (E : shr_fexp prec emax q e loc = (shr_record_of_loc q loc, e)).
  { unfold shr_fexp. assert (Z.log2 q = 52) by (apply Z.log2_unique; lia).
    rewrite Zdigits2_log2 by lia. rewrite fexp_small by lia.
    replace (Z.log2 q + 1 + e - 53 - e) with 0 by lia. reflexivity. }
  rewrite E, shr_m_record_of_loc, loc_of_record_of_loc.
  apply post_shift; [|lia]. destruct (rne_cases q loc) as [-> | ->]; lia.
Qed.

Lemma bra54 s q e loc :
  2 ^ 53 <= q < 2 ^ 54 -> -1000 <= e <= 800 ->
  exists m1, (m1 = q / 2 \/ (Z.odd q = true /\ m1 = q / 2 + 1)) /\
    binary_round_aux prec emax s q e loc = finish s m1 (e + 1).
Proof.
  intros Hq He.
  assert (Z.log2 q = 53) by (apply Z.log2_unique; lia).
  assert (E : shr_fexp prec emax q e loc = (shr_1 (shr_record_of_loc q loc), e + 1)).
  { unfold shr_fexp. rewrite Zdigits2_log2 by lia. rewrite fexp_small by lia.
    replace (Z.log2 q + 1 + e - 53 - e) with 1 by lia. reflexivity. }
  unfold binary_round_aux. rewrite E.
  set (mrs := shr_1 (shr_record_of_loc q loc)).
  assert (Hm : shr_m mrs = q / 2 /\ (shr_r mrs = true -> Z.odd q = true)).
  { unfold mrs. destruct q as [|[p|p|]|]; try lia.
    - rewrite Pos2Z.inj_xI. replace ((2 * Z.pos p + 1) / 2) with (Z.pos p) by (apply Z.div_unique with 1; lia).
      destruct loc as [|[| |]]; cbn; auto.
    - rewrite Pos2Z.inj_xO. replace ((2 * Z.pos p) / 2) with (Z.pos p) by (apply Z.div_unique with 0; lia).
      destruct loc as [|[| |]]; cbn; split; auto; discriminate. }
  destruct Hm as [Hm Hr].
  exists (round_nearest_even (shr_m mrs) (loc_of_shr_record mrs)). split.
  - rewrite Hm. destruct mrs as [m [|] [|]]; cbn [loc_of_shr_record round_nearest_even shr_r] in *; auto.
    destruct (Z.even (q / 2)); auto.
  - apply post_shift; [|lia].
    assert (2 ^ 52 <= q / 2 < 2 ^ 53).
    { split; [apply Z.div_le_lower_bound; lia | apply Z.div_lt_upper_bound; lia]. }
    rewrite Hm. destruct (rne_cases (q / 2) (loc_of_shr_record mrs)) as [-> | ->]; lia.
Qed.

Lemma to_int64_finish m e :
  2 ^ 52 <= m <= 2 ^ 53 -> e <= 0 -> to_int64 (finish false m e) = m / 2 ^ (- e).
Proof.
  intros Hm He.
  assert (Hp : 0 < 2 ^ (- e)) by (apply Z.pow_pos_nonneg; lia).
  assert (Hv : 0 <= m / 2 ^ (- e) <= 2 ^ 53).
  { split; [apply Z.div_pos; lia|].
    apply Z.div_le_upper_bound; [lia|]. nia. }
  assert (Hin : forall z, 0 <= z <= 2 ^ 53 ->
            (if andb (Int64.min <=? z) (z <=? Int64.max) then z else Int64.min) = z).
  { intros z Hz.
    replace (Int64.min <=? z) with true
      by (symmetry; apply Z.leb_le; unfold Int64.min; lia).
    replace (z <=? Int64.max) with true
      by (symmetry; apply Z.leb_le; unfold Int64.max; lia).
    reflexivity. }
  unfold finish. destruct (Z.eqb_spec m (2 ^ 53)) as [->|Hne]; cbn [to_int64 cond_Zopp].
  - rewrite Z2Pos.id by reflexivity.
    destruct (Z.leb_spec 0 (e + 1)).
    + assert (e = -1 \/ e = 0) as [-> | ->] by lia; reflexivity.
    + replace (2 ^ 53) with (2 ^ 52 * 2) in * by reflexivity.
      replace (2 ^ (- e)) with (2 ^ (- (e + 1)) * 2) in *
        by (rewrite Z.mul_comm, <- Z.pow_succ_r by lia; f_equal; lia).
      rewrite Z.div_mul_cancel_r in * by lia. apply Hin. lia.
  - rewrite Z2Pos.id by (clear - Hm; lia).
    destruct (Z.leb_spec 0 e).
    + assert (e = 0) by lia. subst e. change (2 ^ (- 0)) with 1 in *. rewrite Z.div_1_r in *.
      change (2 ^ 0) with 1. rewrite Z.mul_1_r. apply Hin. lia.
    + apply Hin. lia.
Qed.

Lemma div_succ_same S n P :
  0 <= S -> 0 <= P -> 0 < n < 2 ^ P ->
  ((S * 2 ^ P) / n + 1) / 2 ^ P = (S * 2 ^ P) / n / 2 ^ P.
Proof.
  intros HS HP Hn.
  set (q := S * 2 ^ P / n).
  assert (Hq : q * n <= S * 2 ^ P < (q + 1) * n).
  { unfold q. pose proof (Z.mul_div_le (S * 2 ^ P) n ltac:(lia)).
    pose proof (Z.mul_succ_div_gt (S * 2 ^ P) n ltac:(lia)). lia. }
  pose proof (Z.div_mod q (2 ^ P) ltac:(lia)) as Hdm.
  pose proof (Z.mod_pos_bound q (2 ^ P) ltac:(lia)) as Hmb.
  set (K := q / 2 ^ P) in *. set (rho := q mod 2 ^ P) in *.
  destruct (Z.eq_dec rho (2 ^ P - 1)) as [Hr|Hr].
  - exfalso. assert (Hq1 : q + 1 = (K + 1) * 2 ^ P) by lia.
    assert (S < (K + 1) * n) by nia.
    assert ((S + 1) * 2 ^ P <= (q + 1) * n) by nia.
    nia.
  - symmetry. apply Z.div_unique with (rho + 1); lia.
Qed.

Lemma canon_mantissa_bounds z :
  0 < z < 2 ^ 53 -> 2 ^ 52 <= z * 2 ^ (52 - Z.log2 z) < 2 ^ 53.
Proof.
  intros Hz. pose proof (log2_bounds z Hz) as HL.
  pose proof (Z.log2_spec z ltac:(lia)) as [Hlo Hhi].
  replace (2 ^ 52) with (2 ^ Z.log2 z * 2 ^ (52 - Z.log2 z))
    by (rewrite <- Z.pow_add_r by lia; f_equal; lia).
  replace (2 ^ 53) with (2 ^ Z.succ (Z.log2 z) * 2 ^ (52 - Z.log2 z))
    by (rewrite <- Z.pow_add_r by lia; f_equal; lia).
  assert (0 < 2 ^ (52 - Z.log2 z)) by (apply Z.pow_pos_nonneg; lia).
  nia.
Qed.

Lemma SFdiv_canon_trunc S n :
  0 <= S < 2 ^ 53 -> 0 < n < 2 ^ 53 ->
  to_int64 (SFdiv prec emax (canon S) (canon n)) = S / n.
Proof.
  intros HS Hn.
  destruct (Z.eq_dec S 0) as [->|HS0].
  { destruct n; try lia. reflexivity. }
  assert (HS' : 0 < S < 2 ^ 53) by lia.
  pose proof (log2_bounds S HS') as HlS. pose proof (log2_bounds n Hn) as Hln.
  pose proof (canon_mantissa_bounds S HS') as HmS.
  pose proof (canon_mantissa_bounds n Hn) as Hmn.
  set (P := 53 + Z.log2 n - Z.log2 S).
  assert (HP : 1 <= P <= 105) by (unfold P; lia).
  assert (HnP : n < 2 ^ P).
  { pose proof (Z.log2_spec n ltac:(lia)) as [_ Hhi].
    eapply Z.lt_le_trans; [exact Hhi|]. apply Z.pow_le_mono_r; unfold P; lia. }
  destruct S as [|pS|pS]; try lia. destruct n as [|pn|pn]; try lia.
  cbn [canon SFdiv]. unfold SFdiv_core_binary.
  set (mx := Z.pos pS * 2 ^ (52 - Z.log2 (Z.pos pS))) in *.
  set (my := Z.pos pn * 2 ^ (52 - Z.log2 (Z.pos pn))) in *.
  rewrite !Z2Pos.id by lia.
  assert (Hdx : Zdigits2 mx = 53).
  { rewrite Zdigits2_log2 by lia. rewrite (Z.log2_unique mx 52); lia. }
  assert (Hdy : Zdigits2 my = 53).
  { rewrite Zdigits2_log2 by lia. rewrite (Z.log2_unique my 52); lia. }
  rewrite Hdx, Hdy. rewrite fexp_small by lia.
  replace (Z.min (53 + (Z.log2 (Z.pos pS) - 52) - (53 + (Z.log2 (Z.pos pn) - 52)) - 53)
             (Z.log2 (Z.pos pS) - 52 - (Z.log2 (Z.pos pn) - 52))) with (- P) by (unfold P; lia).
  replace (Z.log2 (Z.pos pS) - 52 - (Z.log2 (Z.pos pn) - 52) - - P) with 53 by (unfold P; lia).
  rewrite Z.shiftl_mul_pow2 by lia.
  assert (Hq : mx * 2 ^ 53 / my = Z.pos pS * 2 ^ P / Z.pos pn).
  { unfold mx, my.
    replace (Z.pos pS * 2 ^ (52 - Z.log2 (Z.pos pS)) * 2 ^ 53)
      with (Z.pos pS * 2 ^ P * 2 ^ (52 - Z.log2 (Z.pos pn))).
    - apply Z.div_mul_cancel_r; [lia|]. apply Z.pow_nonzero; lia.
    - rewrite <- !Z.mul_assoc, <- !Z.pow_add_r by lia. do 2 f_equal. unfold P. lia. }
  assert (Hqb : 2 ^ 52 <= mx * 2 ^ 53 / my < 2 ^ 54).
  { split; [apply Z.div_le_lower_bound; lia | apply Z.div_lt_upper_bound; lia]. }
  assert (Hfloor : Z.pos pS / Z.pos pn = Z.pos pS * 2 ^ P / Z.pos pn / 2 ^ P).
  { assert (0 < 2 ^ P) by (apply Z.pow_pos_nonneg; lia).
    rewrite Z.div_div by lia. rewrite Z.div_mul_cancel_r by lia. reflexivity. }
  pose proof (div_succ_same (Z.pos pS) (Z.pos pn) P ltac:(lia) ltac:(lia) ltac:(lia)) as Hsucc.
  destruct (Z.div_eucl (mx * 2 ^ 53) my) as [q r] eqn:E.
  assert (Eq : q = mx * 2 ^ 53 / my) by (unfold Z.div; now rewrite E).
  rewrite <- Eq in Hq, Hqb. rewrite <- Hq in Hfloor, Hsucc. clear Eq E.
  cbn [xorb]. rewrite Hfloor.
  destruct (Z_lt_le_dec q (2 ^ 53)) as [Hlt|Hge].
  - destruct (bra53 false q (- P) (new_location my r) ltac:(lia) ltac:(lia)) as (m1 & Hm1 & ->).
    rewrite to_int64_finish by lia. rewrite Z.opp_involutive.
    destruct Hm1 as [-> | ->]; [reflexivity|exact Hsucc].
  - destruct (bra54 false q (- P) (new_location my r) ltac:(lia) ltac:(lia)) as (m1 & Hm1 & ->).
    assert (Hq2 : 2 ^ 52 <= q / 2 < 2 ^ 53).
    { split; [apply Z.div_le_lower_bound; lia | apply Z.div_lt_upper_bound; lia]. }
    rewrite to_int64_finish by lia.
    assert (Hpow : 2 ^ P = 2 * 2 ^ (- (- P + 1))).
    { rewrite <- Z.pow_succ_r by lia. f_equal. lia. }
    assert (Hpos : 0 < 2 ^ (- (- P + 1))) by (apply Z.pow_pos_nonneg; lia).
    rewrite Hpow in *. rewrite <- !Z.div_div in * by lia.
    destruct Hm1 as [-> | [Hodd ->]]; [reflexivity|].
    replace (q / 2 + 1) with ((q + 1) / 2); [exact Hsucc|].
    rewrite Z.odd_spec in Hodd. destruct Hodd as [h ->].
    replace (2 * h + 1 + 1) with ((h + 1) * 2) by lia. rewrite Z.div_mul by lia.
    rewrite <- (Z.div_unique (2 * h + 1) 2 h 1); lia.
Qed.

End Float64Facts.

(** ** The average interval *)

Section AverageInterval.

Lemma float64_zero_of_int64 : Float64.zero = Float64.of_int64 0.
Proof. reflexivity. Qed.

Lemma float64_add_exact a b :
  - 2 ^ 53 < a < 2 ^ 53 -> - 2 ^ 53 < b < 2 ^ 53 -> - 2 ^ 53 < a + b < 2 ^ 53 ->
  Float64.add (Float64.of_int64 a) (Float64.of_int64 b) = Float64.of_int64 (a + b).
Proof.
  intros Ha Hb Hab. rewrite !Float64Facts.of_int64_canon by assumption.
  now apply Float64Facts.SFadd_canon.
Qed.

Lemma float64_sub_exact a b :
  - 2 ^ 53 < a < 2 ^ 53 -> - 2 ^ 53 < b < 2 ^ 53 -> - 2 ^ 53 < a - b < 2 ^ 53 ->
  Float64.sub (Float64.of_int64 a) (Float64.of_int64 b) = Float64.of_int64 (a - b).
Proof.
  intros Ha Hb Hab. rewrite !Float64Facts.of_int64_canon by assumption.
  now apply Float64Facts.SFsub_canon.
Qed.

Lemma float64_div_trunc s n :
  0 <= s < 2 ^ 53 -> 0 < n < 2 ^ 53 ->
  Float64.to_int64 (Float64.div (Float64.of_int64 s) (Float64.of_int64 n)) = s / n.
Proof.
  intros Hs Hn. rewrite !Float64Facts.of_int64_canon by lia.
  now apply Float64Facts.SFdiv_canon_trunc.
Qed.

Lemma sumOfIntervals_cons2 t t' rest sum :
  sumOfIntervals (t :: t' :: rest) sum
  = sumOfIntervals (t' :: rest)
      (Float64.add sum (Float64.sub (Float64.of_int64 t') (Float64.of_int64 t))).
Proof. reflexivity. Qed.

(** The running sum telescopes: started at [t - t0] on a list that begins with
    [t], it ends at the distance from [t0] to the last element. *)
Lemma sumOfIntervals_exact (rest : list Z) (t t0 : Z) :
  smallTimestamp t0 -> Forall smallTimestamp (t :: rest) ->
  sumOfIntervals (t :: rest) (Float64.of_int64 (t - t0))
  = Float64.of_int64 (default t (last (t :: rest)) - t0).
Proof.
  unfold smallTimestamp. revert t. induction rest as [|t' rest IH]; intros t H0 Hall.
  - reflexivity.
  - inversion Hall as [|? ? Ht Hrest]; subst. inversion Hrest as [|? ? Ht' _]; subst.
    rewrite sumOfIntervals_cons2.
    rewrite float64_sub_exact by lia. rewrite float64_add_exact by lia.
    replace (t - t0 + (t' - t)) with (t' - t0) by lia.
    rewrite IH by assumption.
    rewrite last_cons_cons. destruct (last (t' :: rest)) eqn:E; [reflexivity|].
    now apply last_None in E.
Qed.

End AverageInterval.

(** ** The sorted timestamps of a device *)

Section SortedTimestamps.

Implicit Types (samples : gmap Z Sample) (timestamps : list Z).

Lemma sortedTimestamps_perm samples :
  sortedTimestamps samples ≡ₚ (map_to_list samples).*1.
Proof. apply merge_sort_Permutation. Qed.

Lemma sortedTimestamps_elem samples t :
  t ∈ sortedTimestamps samples <-> is_Some (samples !! t).
Proof.
  rewrite sortedTimestamps_perm, list_elem_of_fmap. split.
  - intros ([t' s] & -> & Hin). apply elem_of_map_to_list in Hin. eauto.
  - intros [s Hs]. exists (t, s). split; [reflexivity|]. now apply elem_of_map_to_list.
Qed.

Lemma sortedTimestamps_length samples :
  length (sortedTimestamps samples) = size samples.
Proof. now rewrite sortedTimestamps_perm, length_fmap, length_map_to_list. Qed.

Lemma sortedTimestamps_NoDup samples : NoDup (sortedTimestamps samples).
Proof. rewrite sortedTimestamps_perm. apply NoDup_fst_map_to_list. Qed.

Lemma StronglySorted_le_lt timestamps :
  StronglySorted Z.le timestamps -> NoDup timestamps -> StronglySorted Z.lt timestamps.
Proof.
  induction 1 as [|t l Hs IH Hall]; intros Hnd; constructor.
  - apply IH. now apply NoDup_cons in Hnd.
  - apply NoDup_cons in Hnd as [Hnotin _].
    rewrite Forall_forall in *. intros t' Hin.
    assert (t <> t') by (intros ->; now apply Hnotin).
    specialize (Hall t' Hin). lia.
Qed.

(** The timestamps are strictly increasing: sorted and distinct. *)
Lemma sortedTimestamps_sorted samples : StronglySorted Z.lt (sortedTimestamps samples).
Proof.
  apply StronglySorted_le_lt; [|apply sortedTimestamps_NoDup].
  apply StronglySorted_merge_sort; apply _.
Qed.

Lemma sortedTimestamps_nonempty samples :
  samples <> ∅ -> sortedTimestamps samples <> [].
Proof.
  intros Hne Hnil. apply Hne. apply map_size_empty_inv.
  now rewrite <- sortedTimestamps_length, Hnil.
Qed.

Lemma sortedTimestamps_small samples :
  (forall t, is_Some (samples !! t) -> smallTimestamp t) ->
  Forall smallTimestamp (sortedTimestamps samples).
Proof.
  intros H. apply Forall_forall. intros t Ht. apply H. now apply sortedTimestamps_elem.
Qed.

(** In a strictly increasing list the last element is at least the length of
    the tail above the first. *)
Lemma sorted_last_ge (rest : list Z) (t : Z) :
  StronglySorted Z.lt (t :: rest) ->
  t + Z.of_nat (length rest) <= default t (last (t :: rest)).
Proof.
  revert t. induction rest as [|t' rest IH]; intros t Hs.
  - cbn. lia.
  - apply StronglySorted_inv in Hs as [Hs Hall].
    specialize (IH t' Hs). rewrite last_cons_cons.
    apply Forall_inv in Hall.
    destruct (last (t' :: rest)) as [l|] eqn:E; [|now apply last_None in E].
    cbn [default length] in *. lia.
Qed.

(** Between two positions of a strictly increasing list the values grow with
    the positions. *)
Lemma sorted_lookup_lt timestamps i j ti tj :
  StronglySorted Z.lt timestamps ->
  timestamps !! i = Some ti -> timestamps !! j = Some tj -> (i < j)%nat -> ti < tj.
Proof.
  intros Hs. revert i j. induction Hs as [|t l Hs IH Hall]; intros i j Hi Hj Hlt.
  - discriminate.
  - destruct j as [|j]; [lia|]. destruct i as [|i]; cbn in Hi, Hj.
    + inversion Hi; subst. rewrite Forall_forall in Hall. apply Hall.
      eapply list_elem_of_lookup_2; eassumption.
    + eapply IH; eauto. lia.
Qed.

Lemma last_lookup_size timestamps :
  last timestamps = timestamps !! (length timestamps - 1)%nat.
Proof. rewrite last_lookup. f_equal. lia. Qed.

End SortedTimestamps.

(** ** The average interval in closed form *)

Lemma averageInterval_spec (t0 : Z) (rest : list Z) :
  StronglySorted Z.lt (t0 :: rest) -> Forall smallTimestamp (t0 :: rest) ->
  averageInterval (t0 :: rest)
  = (default t0 (last (t0 :: rest)) - t0) / Z.of_nat (length (t0 :: rest)).
Proof.
  intros Hs Hall.
  pose proof (sorted_last_ge rest t0 Hs) as Hge.
  assert (Hlast : smallTimestamp (default t0 (last (t0 :: rest)))).
  { destruct (last (t0 :: rest)) as [l|] eqn:E; [|now apply Forall_inv in Hall].
    rewrite Forall_forall in Hall. apply Hall. apply last_Some_elem_of, E. }
  pose proof (Forall_inv Hall) as H0. unfold smallTimestamp in *.
  unfold averageInterval. rewrite float64_zero_of_int64.
  replace 0 with (t0 - t0) at 1 by lia.
  rewrite sumOfIntervals_exact by assumption.
  apply float64_div_trunc; cbn [length]; lia.
Qed.

(** ** Fields of a sample *)

Lemma Field_SetField_eq c v s : Field c (SetField c v s) = Some v.
Proof. destruct c; reflexivity. Qed.

Lemma Field_SetField_ne c c' v s : c <> c' -> Field c' (SetField c v s) = Field c' s.
Proof. destruct c, c'; intros H; try reflexivity; now exfalso. Qed.

Lemma Time_SetField c v s : Time (SetField c v s) = Time s.
Proof. destruct c; reflexivity. Qed.

Lemma SetField_comm c c' v v' s :
  c <> c' -> SetField c v (SetField c' v' s) = SetField c' v' (SetField c v s).
Proof. destruct c, c'; intros H; try reflexivity; now exfalso. Qed.

Lemma channels_all c : c ∈ channels.
Proof. unfold channels. destruct c; set_solver. Qed.

Lemma channels_NoDup : NoDup channels.
Proof. compute_done. Qed.

Lemma fileTag_inj c c' : fileTag c = fileTag c' -> c = c'.
Proof. destruct c, c'; intros H; try reflexivity; discriminate. Qed.

Lemma SetValueByDataFile_fileTag s c v :
  SetValueByDataFile s (fileTag c) v = Some (SetField c v s).
Proof. destruct c; reflexivity. Qed.

(** ** The loop over the fields *)

Section FieldLoop.

Variable atSampleValue : Channel -> result float64.

Lemma foldl_setInterpolated_Panic p l :
  foldl (setInterpolated atSampleValue) (Panic p) l = Panic p.
Proof. induction l; [reflexivity|assumption]. Qed.

Lemma foldl_setInterpolated_Err e l :
  foldl (setInterpolated atSampleValue) (Err e) l = Err e.
Proof. induction l; [reflexivity|assumption]. Qed.

(** A loop that returns a sample has computed a value for every field it
    visited, stored it, and left the other fields and the time alone. *)
Lemma foldl_setInterpolated_Ok l s0 s :
  NoDup l ->
  foldl (setInterpolated atSampleValue) (Ok s0) l = Ok s ->
  (forall c, c ∈ l -> exists v, atSampleValue c = Ok v /\ Field c s = Some v)
  /\ (forall c, c ∉ l -> Field c s = Field c s0)
  /\ Time s = Time s0.
Proof.
  revert s0. induction l as [|c l IH]; intros s0 Hnd Hfold.
  - cbn in Hfold. inversion Hfold; subst. split; [|split]; [|reflexivity..].
    intros c Hc. now apply elem_of_nil in Hc.
  - apply NoDup_cons in Hnd as [Hnotin Hnd]. cbn [foldl] in Hfold.
    unfold setInterpolated at 2 in Hfold. cbn in Hfold.
    destruct (atSampleValue c) as [v|e|p] eqn:Ec; cbn in Hfold.
    + destruct (IH _ Hnd Hfold) as (Hin & Hout & Htime). split; [|split].
      * intros c' Hc'. apply elem_of_cons in Hc' as [->|Hc']; [|now apply Hin].
        exists v. split; [assumption|]. rewrite (Hout c Hnotin). apply Field_SetField_eq.
      * intros c' Hc'. apply not_elem_of_cons in Hc' as [Hne Hc'].
        rewrite (Hout c' Hc'). now apply Field_SetField_ne.
      * rewrite Htime. apply Time_SetField.
    + now rewrite foldl_setInterpolated_Err in Hfold.
    + now rewrite foldl_setInterpolated_Panic in Hfold.
Qed.

(** When every field has a value the loop returns a sample. *)
Lemma foldl_setInterpolated_total l s0 :
  (forall c, c ∈ l -> exists v, atSampleValue c = Ok v) ->
  exists s, foldl (setInterpolated atSampleValue) (Ok s0) l = Ok s.
Proof.
  revert s0. induction l as [|c l IH]; intros s0 Hall.
  - now exists s0.
  - destruct (Hall c) as [v Hv]; [set_solver|]. cbn [foldl].
    unfold setInterpolated at 2. cbn. rewrite Hv. cbn. apply IH. intros c' Hc'.
    apply Hall. set_solver.
Qed.

(** The loop returns no error when no field does, and it panics as soon as a
    field does: with the panic of the first field that has no value. *)
Lemma foldl_setInterpolated_first_panic l s0 :
  (forall c, c ∈ l -> (exists v, atSampleValue c = Ok v)
                      \/ atSampleValue c = Panic (NilDereference c)) ->
  (exists s, foldl (setInterpolated atSampleValue) (Ok s0) l = Ok s)
  \/ (exists c, c ∈ l /\ atSampleValue c = Panic (NilDereference c)
       /\ foldl (setInterpolated atSampleValue) (Ok s0) l = Panic (NilDereference c)).
Proof.
  revert s0. induction l as [|c l IH]; intros s0 Hall.
  - left. now exists s0.
  - cbn [foldl]. unfold setInterpolated at 2. cbn.
    destruct (Hall c) as [[v Hv]|Hp]; [set_solver| |].
    + rewrite Hv. cbn. destruct (IH (SetField c v s0)) as [Hok|(c' & Hc' & Hp & Hf)].
      * intros c' Hc'. apply Hall. set_solver.
      * now left.
      * right. exists c'. split; [set_solver|]. now split.
    + rewrite Hp. cbn. right. exists c. split; [set_solver|]. split; [assumption|].
      apply foldl_setInterpolated_Panic.
Qed.

End FieldLoop.

(** ** The anchor index *)

Lemma find_seq_spec (f : nat -> bool) (start len : nat) :
  match find f (seq start len) with
  | Some i => (start <= i < start + len)%nat /\ f i = true
              /\ forall j, (start <= j < i)%nat -> f j = false
  | None => forall j, (start <= j < start + len)%nat -> f j = false
  end.
Proof.
  revert start. induction len as [|len IH]; intros start; cbn [seq find].
  - intros j Hj. lia.
  - destruct (f start) eqn:Ef.
    + split; [lia|]. split; [assumption|]. intros j Hj. lia.
    + specialize (IH (S start)). destruct (find f (seq (S start) len)) as [i|].
      * destruct IH as (Hi & Hfi & Hbefore). split; [lia|]. split; [assumption|].
        intros j Hj. destruct (decide (j = start)) as [->|Hne]; [assumption|].
        apply Hbefore. lia.
      * intros j Hj. destruct (decide (j = start)) as [->|Hne]; [assumption|].
        apply IH. lia.
Qed.

Lemma sort_Search_spec (n : nat) (f : nat -> bool) :
  (sort_Search n f <= n)%nat
  /\ ((sort_Search n f < n)%nat -> f (sort_Search n f) = true)
  /\ (forall j, (j < sort_Search n f)%nat -> f j = false).
Proof.
  unfold sort_Search. pose proof (find_seq_spec f 0 n) as H.
  destruct (find f (seq 0 n)) as [i|]; simpl.
  - destruct H as (Hi & Hfi & Hbefore). split; [lia|]. split; [auto|].
    intros j Hj. apply Hbefore. lia.
  - split; [lia|]. split; [lia|]. intros j Hj. apply H. lia.
Qed.

Section Anchor.

Variable timestamps : list Z.
Hypothesis timestamps_sorted : StronglySorted Z.lt timestamps.

Let atOrAfter (atTimestamp : Z) (index : nat) : bool :=
  bool_decide (is_Some (timestamps !! index))
  && (atTimestamp <=? default 0 (timestamps !! index)).

Lemma atOrAfter_true atTimestamp index :
  atOrAfter atTimestamp index = true
  <-> exists t, timestamps !! index = Some t /\ atTimestamp <= t.
Proof.
  unfold atOrAfter. rewrite andb_true_iff, bool_decide_eq_true, Z.leb_le. split.
  - intros [[t Ht] Hle]. rewrite Ht in Hle. eauto.
  - intros (t & Ht & Hle). rewrite Ht. eauto.
Qed.

(** Once the density bound lets a query through, its anchor is a position of
    the slice. *)
Lemma anchorIndex_lt atTimestamp lst :
  last timestamps = Some lst -> atTimestamp <= lst ->
  (anchorIndex timestamps (length timestamps) atTimestamp < length timestamps)%nat.
Proof.
  intros Hlast Hle. unfold anchorIndex.
  destruct (sort_Search_spec (length timestamps) (atOrAfter atTimestamp)) as (Hn & _ & Hbefore).
  fold (atOrAfter atTimestamp).
  destruct (decide (sort_Search (length timestamps) (atOrAfter atTimestamp)
                    = length timestamps)) as [Heq|Hne]; [exfalso|lia].
  rewrite last_lookup_size in Hlast.
  assert (length timestamps <> 0)%nat by (intros H0; rewrite H0 in Hlast; destruct timestamps; discriminate).
  specialize (Hbefore (length timestamps - 1)%nat ltac:(lia)).
  assert (atOrAfter atTimestamp (length timestamps - 1) = true) as Htrue
    by (apply atOrAfter_true; eauto).
  congruence.
Qed.

(** A query at a stored timestamp is anchored at that timestamp. *)
Lemma anchorIndex_stored index t :
  timestamps !! index = Some t ->
  anchorIndex timestamps (length timestamps) t = index.
Proof.
  intros Ht. unfold anchorIndex.
  destruct (sort_Search_spec (length timestamps) (atOrAfter t)) as (Hn & Hat & Hbefore).
  fold (atOrAfter t). set (a := sort_Search (length timestamps) (atOrAfter t)) in *.
  pose proof (lookup_lt_Some _ _ _ Ht) as Hlen.
  assert (Htrue : atOrAfter t index = true) by (apply atOrAfter_true; eauto with lia).
  assert (Hle : (a <= index)%nat).
  { destruct (decide (a <= index)%nat); [assumption|].
    rewrite Hbefore in Htrue by lia. discriminate. }
  destruct (decide (a = index)) as [|Hne]; [assumption|exfalso].
  apply atOrAfter_true in Hat as (ta & Hta & Hge); [|lia].
  pose proof (sorted_lookup_lt timestamps a index ta t timestamps_sorted Hta Ht ltac:(lia)).
  lia.
Qed.

End Anchor.

(** ** The scans *)

Section Scans.

Variable timestamps : list Z.
Variable samples : gmap Z Sample.
Variable c : Channel.

(** Every timestamp of the slice is a key of the device. *)
Hypothesis keys_present : forall t, t ∈ timestamps -> is_Some (samples !! t).

Definition nilAt (index : nat) : Prop :=
  forall t s, timestamps !! index = Some t -> samples !! t = Some s -> Field c s = None.

Lemma leftScan_unfold index t s :
  timestamps !! index = Some t -> samples !! t = Some s ->
  leftScan timestamps samples c index
  = match index with
    | S (S _ as next) =>
        if bool_decide (is_Some (Field c s)) then Ok (t, s)
        else leftScan timestamps samples c next
    | _ => Ok (t, s)
    end.
Proof. intros Ht Hs. destruct index as [|[|index]]; cbn [leftScan]; now rewrite Ht, Hs. Qed.

Lemma rightScanFrom_unfold index steps t s :
  timestamps !! index = Some t -> samples !! t = Some s ->
  rightScanFrom timestamps samples c index steps
  = match steps with
    | S steps' =>
        if bool_decide (is_Some (Field c s)) then Ok (t, s)
        else rightScanFrom timestamps samples c (S index) steps'
    | O => Ok (t, s)
    end.
Proof. intros Ht Hs. destruct steps; cbn [rightScanFrom]; now rewrite Ht, Hs. Qed.

Lemma lookup_sample index :
  (index < length timestamps)%nat ->
  exists t s, timestamps !! index = Some t /\ samples !! t = Some s.
Proof.
  intros Hlt. destruct (lookup_lt_is_Some_2 timestamps index Hlt) as [t Ht].
  destruct (keys_present t) as [s Hs]; [eapply list_elem_of_lookup_2; eassumption|].
  eauto.
Qed.

(** A scan that starts on a sample with a reading for the channel stops there. *)
Lemma leftScan_concrete index t s :
  timestamps !! index = Some t -> samples !! t = Some s -> is_Some (Field c s) ->
  leftScan timestamps samples c index = Ok (t, s).
Proof.
  intros Ht Hs Hc. rewrite (leftScan_unfold index t s Ht Hs).
  rewrite bool_decide_eq_true_2 by assumption. now destruct index as [|[|?]].
Qed.

Lemma rightScanFrom_concrete index steps t s :
  timestamps !! index = Some t -> samples !! t = Some s -> is_Some (Field c s) ->
  rightScanFrom timestamps samples c index steps = Ok (t, s).
Proof.
  intros Ht Hs Hc. rewrite (rightScanFrom_unfold index steps t s Ht Hs).
  rewrite bool_decide_eq_true_2 by assumption. now destruct steps.
Qed.

(** What the backward scan selects: it goes down from the anchor and never
    below position 1 (position 0 is examined only when it is the anchor), and
    it stops at the first sample with a reading, or else at the lowest
    position it examines. *)
Lemma leftScan_spec index :
  (index < length timestamps)%nat ->
  exists j t s,
    leftScan timestamps samples c index = Ok (t, s)
    /\ timestamps !! j = Some t /\ samples !! t = Some s
    /\ (Nat.min 1 index <= j <= index)%nat
    /\ (forall k, (j < k <= index)%nat -> nilAt k)
    /\ (is_Some (Field c s) \/ j = Nat.min 1 index).
Proof.
  induction index as [|index IH]; intros Hlt.
  - destruct (lookup_sample 0 Hlt) as (t & s & Ht & Hs).
    exists 0%nat, t, s. rewrite (leftScan_unfold 0 t s Ht Hs).
    repeat split; auto; try lia; intros k Hk; lia.
  - destruct (lookup_sample (S index) Hlt) as (t & s & Ht & Hs).
    rewrite (leftScan_unfold (S index) t s Ht Hs).
    destruct index as [|index].
    + exists 1%nat, t, s. repeat split; auto; try lia; intros k Hk; lia.
    + destruct (decide (is_Some (Field c s))) as [Hc|Hc].
      * rewrite bool_decide_eq_true_2 by assumption.
        exists (S (S index)), t, s. repeat split; auto; try lia; intros k Hk; lia.
      * rewrite bool_decide_eq_false_2 by assumption.
        destruct (IH ltac:(lia)) as (j & t' & s' & Hscan & Ht' & Hs' & Hj & Hnil & Hstop).
        exists j, t', s'. repeat split; auto; try lia.
        intros k Hk. destruct (decide (k = S (S index))) as [->|Hne]; [|apply Hnil; lia].
        intros t2 s2 Ht2 Hs2. rewrite Ht in Ht2. inversion Ht2; subst.
        rewrite Hs in Hs2. inversion Hs2; subst.
        destruct (Field c s2); [exfalso; apply Hc; eauto|reflexivity].
Qed.

(** What the forward scan selects, from [index] with [steps] increments left
    before the exit test on the position holds. *)
Lemma rightScanFrom_spec steps index :
  (index + steps < length timestamps)%nat ->
  exists j t s,
    rightScanFrom timestamps samples c index steps = Ok (t, s)
    /\ timestamps !! j = Some t /\ samples !! t = Some s
    /\ (index <= j <= index + steps)%nat
    /\ (forall k, (index <= k < j)%nat -> nilAt k)
    /\ (is_Some (Field c s) \/ j = (index + steps)%nat).
Proof.
  revert index. induction steps as [|steps IH]; intros index Hlt.
  - destruct (lookup_sample index ltac:(lia)) as (t & s & Ht & Hs).
    exists index, t, s. rewrite (rightScanFrom_unfold index 0 t s Ht Hs).
    repeat split; auto; try lia; intros k Hk; lia.
  - destruct (lookup_sample index ltac:(lia)) as (t & s & Ht & Hs).
    rewrite (rightScanFrom_unfold index (S steps) t s Ht Hs).
    destruct (decide (is_Some (Field c s))) as [Hc|Hc].
    + rewrite bool_decide_eq_true_2 by assumption.
      exists index, t, s. repeat split; auto; try lia; intros k Hk; lia.
    + rewrite bool_decide_eq_false_2 by assumption.
      destruct (IH (S index) ltac:(lia)) as (j & t' & s' & Hscan & Ht' & Hs' & Hj & Hnil & Hstop).
      exists j, t', s'. repeat split; auto; try lia.
      * intros k Hk. destruct (decide (k = index)) as [->|Hne]; [|apply Hnil; lia].
        intros t2 s2 Ht2 Hs2. rewrite Ht in Ht2. inversion Ht2; subst.
        rewrite Hs in Hs2. inversion Hs2; subst.
        destruct (Field c s2); [exfalso; apply Hc; eauto|reflexivity].
      * destruct Hstop as [Hc' | ->]; [now left|right; lia].
Qed.

(** The forward scan from the anchor: it goes up to position [sampleCount-2]
    (the last position is examined only when it is the anchor). *)
Lemma rightScan_spec index :
  (index < length timestamps)%nat ->
  exists j t s,
    rightScan timestamps samples c (length timestamps) index = Ok (t, s)
    /\ timestamps !! j = Some t /\ samples !! t = Some s
    /\ (index <= j <= Nat.max index (length timestamps - 2))%nat
    /\ (forall k, (index <= k < j)%nat -> nilAt k)
    /\ (is_Some (Field c s) \/ j = Nat.max index (length timestamps - 2)).
Proof.
  intros Hlt. unfold rightScan.
  destruct (rightScanFrom_spec (length timestamps - 1 - (index + 1)) index ltac:(lia))
    as (j & t & s & Hscan & Ht & Hs & Hj & Hnil & Hstop).
  exists j, t, s. repeat split; auto; try lia.
  destruct Hstop as [Hc' | ->]; [now left|right; lia].
Qed.

End Scans.

(** ** The density bound *)

#[local] Instance Z_lt_antisym : AntiSymm (=) Z.lt.
Proof. intros x y H1 H2. lia. Qed.

Lemma timestampsOf_sorted samples : timestampsOf samples (sortedTimestamps samples).
Proof.
  split; [apply sortedTimestamps_sorted|]. intros t. apply sortedTimestamps_elem.
Qed.

Lemma StronglySorted_lt_NoDup (l : list Z) : StronglySorted Z.lt l -> NoDup l.
Proof.
  induction 1 as [|t l Hs IH Hall]; constructor; [|assumption].
  intros Hin. rewrite Forall_forall in Hall. specialize (Hall t Hin). lia.
Qed.

Lemma timestampsOf_unique samples timestamps :
  timestampsOf samples timestamps -> timestamps = sortedTimestamps samples.
Proof.
  intros [Hs Hel]. destruct (timestampsOf_sorted samples) as [Hs' Hel'].
  apply (StronglySorted_unique Z.lt); [assumption..|].
  apply NoDup_Permutation; [now apply StronglySorted_lt_NoDup..|].
  intros t. now rewrite Hel, Hel'.
Qed.

Lemma wrap_in_range z : Int64.in_range z -> Int64.wrap z = z.
Proof.
  unfold Int64.in_range, Int64.wrap, Int64.min, Int64.max. intros H.
  rewrite Z.mod_small by lia. lia.
Qed.

Lemma outsideDensityBound_spec first lst avg atTimestamp :
  smallTimestamp first -> smallTimestamp lst -> 0 <= avg <= 2 ^ 52 ->
  outsideDensityBound first lst avg atTimestamp = false
  <-> first + avg <= atTimestamp <= lst - avg.
Proof.
  unfold smallTimestamp, outsideDensityBound, Int64.add, Int64.sub. intros Hf Hl Ha.
  rewrite !wrap_in_range by (unfold Int64.in_range, Int64.min, Int64.max; lia).
  rewrite orb_false_iff, !Z.ltb_ge. lia.
Qed.

Section Device.

Variable lib : GoLib.
Variable hardware : Hardware.
Variable hardwareId : string.
Variable samples : gmap Z Sample.
Variable timestamps : list Z.
Variables first lst : Z.

Hypothesis device : hardware !! hardwareId = Some samples.
Hypothesis slice : timestampsOf samples timestamps.
Hypothesis small : Forall smallTimestamp timestamps.
Hypothesis slice_first : timestamps !! 0%nat = Some first.
Hypothesis slice_last : last timestamps = Some lst.

Lemma slice_sorted : timestamps = sortedTimestamps samples.
Proof. now apply timestampsOf_unique. Qed.

Lemma slice_length : length timestamps = size samples.
Proof. rewrite slice_sorted. apply sortedTimestamps_length. Qed.

Lemma slice_keys t : t ∈ timestamps -> is_Some (samples !! t).
Proof. apply slice. Qed.

Lemma slice_average :
  averageInterval timestamps = (lst - first) / Z.of_nat (length timestamps)
  /\ 0 <= averageInterval timestamps <= 2 ^ 52
  /\ first <= lst /\ smallTimestamp first /\ smallTimestamp lst.
Proof.
  destruct slice as [Hs _]. destruct timestamps as [|t0 rest] eqn:E; [discriminate|].
  cbn in slice_first. inversion slice_first; subst t0.
  pose proof (averageInterval_spec first rest Hs small) as Havg.
  pose proof (sorted_last_ge rest first Hs) as Hge.
  rewrite slice_last in Havg, Hge. change (default first (Some lst)) with lst in Havg, Hge.
  assert (Hl : smallTimestamp lst).
  { rewrite Forall_forall in small. apply small. now apply last_Some_elem_of. }
  pose proof (Forall_inv small) as Hf. unfold smallTimestamp in *.
  rewrite Havg. repeat split; try lia.
  - apply Z.div_pos; cbn [length]; lia.
  - transitivity (lst - first); [|lia].
    assert (Hn : 1 <= Z.of_nat (length (first :: rest))) by (cbn [length]; lia).
    assert (Hd : 0 <= lst - first) by lia.
    apply Z.div_le_upper_bound; [lia|].
    revert Hn Hd. generalize (Z.of_nat (length (first :: rest))) (lst - first).
    intros n d Hn Hd. nia.
Qed.

(** [InterpolateSample] on a well-formed device: the density test, then the
    loop over the fields from an anchor inside the slice. *)
Lemma InterpolateSample_device at_ :
  InterpolateSample lib hardware hardwareId at_
  = if outsideDensityBound first lst (averageInterval timestamps) (time.UnixMilli at_)
    then Err InsufficientDensity
    else interpolateFields
           (interpolateField lib timestamps samples (length timestamps) (time.UnixMilli at_)
              (anchorIndex timestamps (length timestamps) (time.UnixMilli at_)))
           at_.
Proof.
  unfold InterpolateSample. rewrite device. cbn zeta.
  rewrite <- slice_sorted, <- slice_length, slice_first.
  rewrite <- last_lookup_size, slice_last. reflexivity.
Qed.

Lemma anchor_in_slice at_ :
  outsideDensityBound first lst (averageInterval timestamps) (time.UnixMilli at_) = false ->
  (anchorIndex timestamps (length timestamps) (time.UnixMilli at_) < length timestamps)%nat.
Proof.
  intros Hin. destruct slice_average as (_ & Havg & _ & Hf & Hl).
  apply outsideDensityBound_spec in Hin; [|assumption..].
  eapply anchorIndex_lt; [exact (proj1 slice)|exact slice_last|lia].
Qed.

(** Inside the slice a field either gets a value or panics on its own nil
    reading; it returns no error. *)
Lemma interpolateField_cases atTimestamp atSampleIndex c :
  (atSampleIndex < length timestamps)%nat ->
  (exists v, interpolateField lib timestamps samples (length timestamps)
               atTimestamp atSampleIndex c = Ok v)
  \/ interpolateField lib timestamps samples (length timestamps)
       atTimestamp atSampleIndex c = Panic (NilDereference c).
Proof.
  intros Hlt. unfold interpolateField.
  destruct (leftScan_spec timestamps samples c slice_keys atSampleIndex Hlt)
    as (jl & tl & sl & -> & _).
  destruct (rightScan_spec timestamps samples c slice_keys atSampleIndex Hlt)
    as (jr & tr & sr & -> & _).
  cbn. destruct (Field c sl); [|now right]. destruct (Field c sr); [|now right].
  left. eauto.
Qed.


(** An anchor sample with a reading for the channel is selected by both scans. *)
Lemma interpolateField_collapse atTimestamp atSampleIndex c t s v :
  timestamps !! atSampleIndex = Some t -> samples !! t = Some s -> Field c s = Some v ->
  leftScan timestamps samples c atSampleIndex = Ok (t, s)
  /\ rightScan timestamps samples c (length timestamps) atSampleIndex = Ok (t, s)
  /\ interpolateField lib timestamps samples (length timestamps)
       atTimestamp atSampleIndex c
     = Ok (blend (float64Arith lib) atTimestamp t t v v).
Proof.
  intros Ht Hs Hv.
  assert (Hl : leftScan timestamps samples c atSampleIndex = Ok (t, s))
    by (apply leftScan_concrete; rewrite ?Hv; eauto).
  assert (Hr : rightScan timestamps samples c (length timestamps) atSampleIndex = Ok (t, s))
    by (apply rightScanFrom_concrete; rewrite ?Hv; eauto).
  split; [assumption|]. split; [assumption|].
  unfold interpolateField. rewrite Hl, Hr. cbn. now rewrite Hv.
Qed.

End Device.

(** * Ingestion *)

Section Ingestion.

Implicit Types (hw : Hardware) (w : RowWrite).

Lemma ingestFile_writes file acc :
  foldl (fun acc row => hw ← acc; ingestRow (fileHardwareId file) (fileDataName file) row hw)
        acc (fileRows file)
  = foldl ingestWrite acc
      (map (fun row => (fileHardwareId file, fileDataName file, row)) (fileRows file)).
Proof.
  revert acc. induction (fileRows file) as [|row rows IH]; intros acc; [reflexivity|].
  cbn [map foldl]. rewrite <- IH. reflexivity.
Qed.

Lemma foldl_ingestWrite_Panic p (ws : list RowWrite) : foldl ingestWrite (Panic p) ws = Panic p.
Proof. induction ws; [reflexivity|assumption]. Qed.

Lemma foldl_ingestWrite_Err e (ws : list RowWrite) : foldl ingestWrite (Err e) ws = Err e.
Proof. induction ws; [reflexivity|assumption]. Qed.

Lemma foldl_ingestFile acc files :
  foldl (fun acc file => hw ← acc; ingestFile file hw) acc files
  = foldl ingestWrite acc (rowsOf files).
Proof.
  revert acc. induction files as [|file files IH]; intros acc; [reflexivity|].
  cbn [foldl rowsOf flat_map]. rewrite foldl_app, IH. f_equal.
  destruct acc as [hw|e|p]; cbn.
  - unfold ingestFile. apply ingestFile_writes.
  - now rewrite foldl_ingestWrite_Err.
  - now rewrite foldl_ingestWrite_Panic.
Qed.

(** [PopulateSamples] is the fold of the row writes over the empty store. *)
Lemma PopulateSamples_writes files :
  PopulateSamples files = foldl ingestWrite (Ok ∅) (rowsOf files).
Proof. apply foldl_ingestFile. Qed.

(** The store after one valid row. *)
Definition put (hardwareId : string) (t : Z) (c : Channel) (v : float64) hw : Hardware :=
  let samples := default ∅ (hw !! hardwareId) in
  <[hardwareId := <[t := SetField c v (default (emptySample (time.FromUnixMilli t))
                                               (samples !! t))]> samples]> hw.

Lemma SetValueByDataFile_Some s name v s' :
  SetValueByDataFile s name v = Some s' ->
  exists c, fileTag c = name /\ s' = SetField c v s
            /\ forall s2, SetValueByDataFile s2 name v = Some (SetField c v s2).
Proof.
  unfold SetValueByDataFile.
  destruct (find (fun c => String.eqb (fileTag c) name) channels) as [c|] eqn:E; [|discriminate].
  intros H. inversion H; subst. exists c. apply find_some in E as [_ E].
  apply String.eqb_eq in E. auto.
Qed.

Lemma SetValueByDataFile_None s name v s2 :
  SetValueByDataFile s name v = None -> SetValueByDataFile s2 name v = None.
Proof.
  unfold SetValueByDataFile.
  now destruct (find (fun c => String.eqb (fileTag c) name) channels).
Qed.

(** A row either fails whatever the store is, or is a [put]. *)
Lemma ingestRow_cases hardwareId name row :
  (forall hw, ingestRow hardwareId name row hw = Panic PopulateFailure)
  \/ (exists t c v, rowTimestamp row = Some t /\ rowValue row = Some v /\ fileTag c = name
        /\ forall hw, ingestRow hardwareId name row hw = Ok (put hardwareId t c v hw)).
Proof.
  unfold ingestRow. destruct (rowTimestamp row) as [t|]; [|now left].
  destruct (rowValue row) as [v|]; [|now left].
  destruct (SetValueByDataFile (emptySample 0) name v) as [s'|] eqn:E.
  - apply SetValueByDataFile_Some in E as (c & Hc & _ & Hall).
    right. exists t, c, v. repeat split; auto. intros hw. now rewrite Hall.
  - left. intros hw. now rewrite (SetValueByDataFile_None _ _ _ _ E).
Qed.






End Ingestion.



(** ** Devices with every reading *)

Section DenseDevice.

Variable lib : GoLib.
Variable hardware : Hardware.
Variable hardwareId : string.
Variable samples : gmap Z Sample.
Variable timestamps : list Z.
Variables first lst : Z.

Hypothesis device : hardware !! hardwareId = Some samples.
Hypothesis slice : timestampsOf samples timestamps.
Hypothesis small : Forall smallTimestamp timestamps.
Hypothesis slice_first : timestamps !! 0%nat = Some first.
Hypothesis slice_last : last timestamps = Some lst.
Hypothesis dense : forall t s c, samples !! t = Some s -> is_Some (Field c s).

Lemma interpolateField_dense atTimestamp atSampleIndex c :
  (atSampleIndex < length timestamps)%nat ->
  exists v, interpolateField lib timestamps samples (length timestamps)
              atTimestamp atSampleIndex c = Ok v.
Proof.
  intros Hlt.
  destruct (interpolateField_cases lib samples timestamps slice atTimestamp atSampleIndex c Hlt)
    as [Hok|Hpanic]; [assumption|exfalso].
  unfold interpolateField in Hpanic.
  destruct (leftScan_spec timestamps samples c (slice_keys samples timestamps slice)
              atSampleIndex Hlt) as (jl & tl & sl & El & _ & Hsl & _).
  destruct (rightScan_spec timestamps samples c (slice_keys samples timestamps slice)
              atSampleIndex Hlt) as (jr & tr & sr & Er & _ & Hsr & _).
  rewrite El, Er in Hpanic. cbn in Hpanic.
  destruct (dense tl sl c Hsl) as [vl Hvl]. destruct (dense tr sr c Hsr) as [vr Hvr].
  rewrite Hvl, Hvr in Hpanic. discriminate.
Qed.

(** Inside the density bound, a device with every reading gives a sample. *)
Lemma InterpolateSample_dense at_ :
  outsideDensityBound first lst (averageInterval timestamps) (time.UnixMilli at_) = false ->
  exists sample, InterpolateSample lib hardware hardwareId at_ = Ok sample.
Proof.
  intros Hin.
  rewrite (InterpolateSample_device lib hardware hardwareId samples timestamps first lst
             device slice slice_first slice_last), Hin.
  apply foldl_setInterpolated_total. intros c _. apply interpolateField_dense.
  now apply (anchor_in_slice samples timestamps first lst slice small slice_first slice_last).
Qed.

End DenseDevice.

(** ** The loop of the handler *)

Section Loop.

Variable lib : GoLib.
Variable hardware : Hardware.
Variable requestData : TabulatedHardwareRequestData.

(** A turn that stores a sample leaves the timestamp where it was. *)
Lemma loopIteration_Continue timestamp tabulatedHardware timestamp' tabulatedHardware' :
  loopIteration lib hardware requestData timestamp tabulatedHardware
    = Continue timestamp' tabulatedHardware' ->
  timestamp' = timestamp.
Proof.
  unfold loopIteration. destruct (time.Before timestamp (To requestData)); [|discriminate].
  destruct (InterpolateSample lib hardware (Id requestData) timestamp); try discriminate.
  destruct (postStatement requestData timestamp); [|discriminate]. congruence.
Qed.

Variable sample : Sample.
Hypothesis before : time.Before (From requestData) (To requestData) = true.
Hypothesis interpolated :
  InterpolateSample lib hardware (Id requestData) (From requestData) = Ok sample.

Lemma loopIteration_first tabulatedHardware :
  loopIteration lib hardware requestData (From requestData) tabulatedHardware
  = if Count requestData =? 0 then Exit (Panic DivideByZero)
    else Continue (From requestData)
           (<[time_Format lib layout (From requestData) := sample]> tabulatedHardware).
Proof.
  unfold loopIteration, postStatement. rewrite before, interpolated.
  now destruct (Count requestData =? 0).
Qed.

Hypothesis count : Count requestData <> 0.

(** The loop is still at its first timestamp after any number of turns, with
    the one entry of that timestamp in the table. *)
Lemma loopState_stuck turns :
  loopState lib hardware requestData (S turns)
  = Some (From requestData, {[time_Format lib layout (From requestData) := sample]}).
Proof.
  induction turns as [|turns IH].
  - cbn [loopState]. rewrite loopIteration_first.
    apply Z.eqb_neq in count. rewrite count. now rewrite insert_empty.
  - change (loopState lib hardware requestData (S (S turns)))
      with (match loopState lib hardware requestData (S turns) with
            | Some (timestamp, tabulatedHardware) =>
                match loopIteration lib hardware requestData timestamp tabulatedHardware with
                | Continue timestamp' tabulatedHardware' => Some (timestamp', tabulatedHardware')
                | Exit _ => None
                end
            | None => None
            end).
    rewrite IH, loopIteration_first. apply Z.eqb_neq in count. rewrite count.
    now rewrite insert_singleton_eq.
Qed.

(** No amount of fuel ends the loop. *)
Lemma tabulate_diverges fuel tabulatedHardware :
  tabulate lib hardware requestData fuel (From requestData) tabulatedHardware = None.
Proof.
  revert tabulatedHardware. induction fuel as [|fuel IH]; intros tabulatedHardware.
  - reflexivity.
  - cbn [tabulate]. rewrite loopIteration_first. apply Z.eqb_neq in count. rewrite count.
    apply IH.
Qed.

End Loop.

(** ** The example devices *)

Lemma denseDevice_spec samples t s c :
  denseDevice samples = true -> samples !! t = Some s -> is_Some (Field c s).
Proof.
  unfold denseDevice. rewrite forallb_forall. intros Hall Hs.
  specialize (Hall (t, s)). rewrite forallb_forall in Hall.
  assert (Hin : In (t, s) (map_to_list samples))
    by now apply list_elem_of_In, elem_of_map_to_list.
  specialize (Hall Hin c (proj1 (list_elem_of_In _ _) (channels_all c))).
  now apply bool_decide_eq_true in Hall.
Qed.

Lemma smallTimestamp_five : Forall smallTimestamp fiveTimestamps.
Proof. repeat constructor; unfold smallTimestamp; lia. Qed.

Lemma fan1_slice : timestampsOf fan1Samples fiveTimestamps.
Proof.
  replace fiveTimestamps with (sortedTimestamps fan1Samples) by (vm_compute; reflexivity).
  apply timestampsOf_sorted.
Qed.

(** On fan1 every instant from 800 ms to 3200 ms gives a sample. *)
Lemma InterpolateSample_fan1 lib at_ :
  800 <= time.UnixMilli at_ <= 3200 ->
  exists sample, InterpolateSample lib fan1 "fan1" at_ = Ok sample.
Proof.
  intros Hat.
  apply (InterpolateSample_dense lib fan1 "fan1" fan1Samples fiveTimestamps 0 4000);
    try reflexivity.
  - apply fan1_slice.
  - apply smallTimestamp_five.
  - intros t s c. now apply denseDevice_spec.
  - replace (averageInterval fiveTimestamps) with 800 by (vm_compute; reflexivity).
    apply outsideDensityBound_spec; unfold smallTimestamp; lia.
Qed.

(** * The handler *)

(** C1: the loop of the handler does not visit [count] evenly spaced
    timestamps. For the request of 3 samples of fan1 from 1000 ms to 4000 ms,
    expected to give the entries of 1000, 2000 and 3000 ms, the sample at
    1000 ms is interpolated, and after any number of turns the loop is still
    at 1000 ms with that one entry in its table: the instant [timestamp.Add]
    returns is dropped. *)
Theorem tabulate_never_leaves_first_timestamp :
  forall lib : GoLib,
    exists sample,
      InterpolateSample lib fan1 "fan1" (atMillis 1000) = Ok sample
      /\ postStatement (tabulationData "fan1" 1000 4000 3) (atMillis 1000) = Some (atMillis 2000)
      /\ forall turns,
           loopState lib fan1 (tabulationData "fan1" 1000 4000 3) (S turns)
           = Some (atMillis 1000, {[time_Format lib layout (atMillis 1000) := sample]}).
Proof.
  intros lib.
  destruct (InterpolateSample_fan1 lib (atMillis 1000)) as [sample Hsample];
    [vm_compute; split; discriminate|].
  exists sample. split; [assumption|]. split; [vm_compute; reflexivity|].
  intros turns.
  apply (loopState_stuck lib fan1 (tabulationData "fan1" 1000 4000 3) sample);
    [vm_compute; reflexivity|exact Hsample|discriminate].
Qed.

(** C2: the loop does not end after [count] turns. For the request of 3
    samples of fan1 from 1000 ms to 4000 ms the loop is still running after
    any number of turns, at the timestamp it started from, and [Handle]
    returns with no amount of fuel. *)
Theorem Handle_loop_never_ends :
  forall lib : GoLib,
    (forall turns, exists tabulatedHardware,
        loopState lib fan1 (tabulationData "fan1" 1000 4000 3) turns
        = Some (atMillis 1000, tabulatedHardware))
    /\ (forall fuel, Handle lib fan1 fuel (tabulationRequest "fan1" 1000 4000 3) = None).
Proof.
  intros lib.
  destruct (InterpolateSample_fan1 lib (atMillis 1000)) as [sample Hsample];
    [vm_compute; split; discriminate|].
  split.
  - intros [|turns]; [exists ∅; reflexivity|]. eexists.
    apply (loopState_stuck lib fan1 (tabulationData "fan1" 1000 4000 3) sample);
      [vm_compute; reflexivity|exact Hsample|discriminate].
  - intros fuel.
    pose proof (tabulate_diverges lib fan1 (tabulationData "fan1" 1000 4000 3) sample
                  ltac:(vm_compute; reflexivity) Hsample ltac:(discriminate) fuel ∅) as Hloop.
    unfold Handle, tabulationRequest.
    cbn [URL_Path Method Body String.eqb Ascii.eqb Bool.eqb].
    change (HasSamples fan1 (Id (tabulationData "fan1" 1000 4000 3))) with true.
    cbn [negb]. rewrite Hloop. reflexivity.
Qed.

(** C10, as the code has it: a request with [count = 0] for a known device
    and with [from] before [to] panics on the integer division by zero when
    the sample at [from] is interpolated; the division is in the post
    statement of the loop, after the body, so when that interpolation returns
    an error the answer is status 500, and when it panics that panic is the
    one raised. With [from] not before [to] the loop body is not entered and
    the answer is an empty table. *)
Theorem Handle_zero_count (lib : GoLib) (hardware : Hardware) (fuel : nat)
    (requestData : TabulatedHardwareRequestData) :
  Count requestData = 0 ->
  Handle lib hardware (S fuel) (mkRequest "/api/tabulated_hardware" "POST" (Some requestData))
  = if negb (HasSamples hardware (Id requestData))
    then Some (Responded StatusInternalServerError NoBody)
    else if time.Before (From requestData) (To requestData) then
           match InterpolateSample lib hardware (Id requestData) (From requestData) with
           | Ok _ => Some (Panicked DivideByZero)
           | Err _ => Some (Responded StatusInternalServerError NoBody)
           | Panic p => Some (Panicked p)
           end
         else Some (Responded StatusOK (Tabulated ∅)).
Proof.
  intros Hcount. unfold Handle. cbn.
  destruct (negb (HasSamples hardware (Id requestData))); [reflexivity|].
  cbn [tabulate]. unfold loopIteration, postStatement. rewrite Hcount. cbn.
  destruct (time.Before (From requestData) (To requestData)); [|reflexivity].
  now destruct (InterpolateSample lib hardware (Id requestData) (From requestData)).
Qed.

Lemma Handle_zero_count_witness :
  Handle libAtHalfPi fan1 1 (tabulationRequest "fan1" 1000 4000 0)
  = Some (Panicked DivideByZero).
Proof.
  unfold tabulationRequest.
  rewrite (Handle_zero_count libAtHalfPi fan1 0 (tabulationData "fan1" 1000 4000 0) eq_refl).
  vm_compute. reflexivity.
Defined.

(** C10, counterexample: [count = 0], [from] before [to] and a known device,
    yet no division is reached: the sample at [from] is outside the density
    bound and the answer is status 500. *)
Lemma Handle_zero_count_without_panic :
  Count (tabulationData "fan1" 0 4000 0) = 0
  /\ time.Before (atMillis 0) (atMillis 4000) = true
  /\ HasSamples fan1 "fan1" = true
  /\ Handle libAtHalfPi fan1 1 (tabulationRequest "fan1" 0 4000 0)
     = Some (Responded StatusInternalServerError NoBody).
Proof. repeat split; vm_compute; reflexivity. Qed.

(** * The density bound and the panics of InterpolateSample *)

Lemma leftScan_not_Err timestamps samples c index e :
  leftScan timestamps samples c index <> Err e.
Proof.
  induction index as [|index IH]; cbn [leftScan].
  - destruct (timestamps !! 0%nat) as [t|]; [|discriminate].
    destruct (samples !! t); discriminate.
  - destruct (timestamps !! S index) as [t|]; [|discriminate].
    destruct (samples !! t) as [s|]; [|discriminate].
    destruct index as [|index]; [discriminate|].
    destruct (bool_decide (is_Some (Field c s))); [discriminate|assumption].
Qed.

Lemma rightScanFrom_not_Err timestamps samples c index steps e :
  rightScanFrom timestamps samples c index steps <> Err e.
Proof.
  revert index. induction steps as [|steps IH]; intros index; cbn [rightScanFrom];
    (destruct (timestamps !! index) as [t|]; [|discriminate]);
    (destruct (samples !! t) as [s|]; [|discriminate]).
  - discriminate.
  - destruct (bool_decide (is_Some (Field c s))); [discriminate|apply IH].
Qed.

(** The computation of a field returns no error value. *)
Lemma interpolateField_not_Err lib timestamps samples sampleCount atTimestamp atSampleIndex c e :
  interpolateField lib timestamps samples sampleCount atTimestamp atSampleIndex c <> Err e.
Proof.
  unfold interpolateField, rightScan.
  pose proof (leftScan_not_Err timestamps samples c atSampleIndex e) as Hl.
  destruct (leftScan timestamps samples c atSampleIndex) as [[tl sl]|e'|p]; cbn;
    [|congruence|discriminate].
  pose proof (rightScanFrom_not_Err timestamps samples c atSampleIndex
                (sampleCount - 1 - (atSampleIndex + 1)) e) as Hr.
  destruct (rightScanFrom timestamps samples c atSampleIndex _) as [[tr sr]|e'|p]; cbn;
    [|congruence|discriminate].
  destruct (Field c sl); [|discriminate]. destruct (Field c sr); discriminate.
Qed.

Lemma foldl_setInterpolated_not_Err atSampleValue l acc e :
  (forall c, atSampleValue c <> Err e) -> acc <> Err e ->
  foldl (setInterpolated atSampleValue) acc l <> Err e.
Proof.
  intros Hf. revert acc. induction l as [|c l IH]; intros acc Hacc; [assumption|].
  cbn [foldl]. apply IH. unfold setInterpolated.
  destruct acc as [s|e'|p]; cbn; [|congruence|discriminate].
  specialize (Hf c). destruct (atSampleValue c); cbn; [discriminate|congruence|discriminate].
Qed.

Section Density.

Variable lib : GoLib.
Variable hardware : Hardware.
Variable hardwareId : string.
Variable samples : gmap Z Sample.
Variable timestamps : list Z.
Variables first lst : Z.

Hypothesis device : hardware !! hardwareId = Some samples.
Hypothesis slice : timestampsOf samples timestamps.
Hypothesis slice_first : timestamps !! 0%nat = Some first.
Hypothesis slice_last : last timestamps = Some lst.

(** The density error is the outcome of the test of line 151 and of nothing
    else. *)
Lemma InsufficientDensity_iff at_ :
  InterpolateSample lib hardware hardwareId at_ = Err InsufficientDensity
  <-> outsideDensityBound first lst (averageInterval timestamps) (time.UnixMilli at_) = true.
Proof.
  rewrite (InterpolateSample_device lib hardware hardwareId samples timestamps first lst
             device slice slice_first slice_last).
  destruct (outsideDensityBound first lst (averageInterval timestamps) (time.UnixMilli at_)).
  - tauto.
  - split; [|discriminate]. intros Herr. exfalso. revert Herr.
    apply foldl_setInterpolated_not_Err; [|discriminate].
    intros c. apply interpolateField_not_Err.
Qed.

(** A field that panics on a nil reading has one in the device. *)
Lemma interpolateField_nil atTimestamp atSampleIndex c :
  (atSampleIndex < length timestamps)%nat ->
  interpolateField lib timestamps samples (length timestamps) atTimestamp atSampleIndex c
    = Panic (NilDereference c) ->
  exists t s, samples !! t = Some s /\ Field c s = None.
Proof.
  intros Hlt. unfold interpolateField.
  destruct (leftScan_spec timestamps samples c (slice_keys samples timestamps slice)
              atSampleIndex Hlt) as (jl & tl & sl & -> & _ & Hsl & _).
  destruct (rightScan_spec timestamps samples c (slice_keys samples timestamps slice)
              atSampleIndex Hlt) as (jr & tr & sr & -> & _ & Hsr & _).
  cbn. destruct (Field c sl) eqn:El; [|eauto]. destruct (Field c sr) eqn:Er; [discriminate|eauto].
Qed.

End Density.



Lemma timestampsOf_singleton t0 (s : Sample) : timestampsOf {[t0 := s]} [t0].
Proof.
  split; [repeat constructor|]. intros t. rewrite list_elem_of_singleton.
  unfold is_Some. setoid_rewrite lookup_singleton_Some. split.
  - intros ->. eauto.
  - now intros (x & -> & _).
Qed.

(** C4, as the code has it: for a device with a single stored sample, at
    [t0], the average interval is 0, and [InterpolateSample] returns the
    density error exactly when the query timestamp differs from [t0]. *)
Theorem InterpolateSample_single_sample (lib : GoLib) (hardware : Hardware)
    (hardwareId : string) (t0 : Z) (sample : Sample) (at_ : time.Time) :
  hardware !! hardwareId = Some {[t0 := sample]} ->
  Int64.in_range t0 ->
  averageInterval [t0] = 0
  /\ (InterpolateSample lib hardware hardwareId at_ = Err InsufficientDensity
      <-> time.UnixMilli at_ <> t0).
Proof.
  intros Hdev Ht0. split; [reflexivity|].
  rewrite (InsufficientDensity_iff lib hardware hardwareId {[t0 := sample]} [t0] t0 t0
             Hdev (timestampsOf_singleton t0 sample) eq_refl eq_refl).
  change (averageInterval [t0]) with 0.
  unfold outsideDensityBound, Int64.add, Int64.sub.
  rewrite Z.add_0_r, Z.sub_0_r, (wrap_in_range t0 Ht0), orb_true_iff, !Z.ltb_lt. lia.
Qed.

Lemma InterpolateSample_single_sample_witness :
  InterpolateSample libAtHalfPi solo "solo" (atMillis 999) = Err InsufficientDensity.
Proof.
  apply (proj2 (InterpolateSample_single_sample libAtHalfPi solo "solo" 1000
                  (denseSample 1000 threeTenths) (atMillis 999) eq_refl
                  ltac:(vm_compute; split; discriminate))).
  vm_compute. discriminate.
Defined.

(** C4, counterexample: a device with exactly one stored sample, queried at
    the timestamp of that sample, is not rejected by the density test; the
    interpolation step runs and returns a sample. *)
Lemma InterpolateSample_single_sample_accepted :
  size (default ∅ (solo !! "solo")) = 1%nat
  /\ InterpolateSample libAtHalfPi solo "solo" (atMillis 1000)
     = Ok (denseSample 1000 belowThreeTenths).
Proof. split; vm_compute; reflexivity. Qed.





(** * The scans and the blend *)


Lemma fan3_slice : timestampsOf fan3Samples fiveTimestamps.
Proof.
  replace fiveTimestamps with (sortedTimestamps fan3Samples) by (vm_compute; reflexivity).
  apply timestampsOf_sorted.
Qed.

(** C5: the backward scan does not go down to index 0. From an anchor at
    index 1 or above it never selects index 0, whatever the readings are; so
    on fan3, whose temperature is nil at index 1 and concrete at index 0, the
    scan from the anchor 1 selects the nil reading of index 1 instead of the
    nearest concrete one, and [InterpolateSample] at 1000 ms panics on it.
    The forward scan stops at index [n-2] as described. *)
Theorem leftScan_stops_above_first_index :
  (forall timestamps samples c index leftTimestamp leftSample,
     (1 <= index)%nat ->
     leftScan timestamps samples c index = Ok (leftTimestamp, leftSample) ->
     exists leftSampleIndex,
       (1 <= leftSampleIndex <= index)%nat
       /\ timestamps !! leftSampleIndex = Some leftTimestamp
       /\ samples !! leftTimestamp = Some leftSample)
  /\ anchorIndex fiveTimestamps 5 1000 = 1%nat
  /\ (exists s0, fan3Samples !! 0 = Some s0 /\ Field ChTemperature s0 = Some threeTenths)
  /\ (exists s1, leftScan fiveTimestamps fan3Samples ChTemperature 1 = Ok (1000, s1)
                 /\ Field ChTemperature s1 = None)
  /\ (forall lib, InterpolateSample lib fan3 "fan3" (atMillis 1000)
                  = Panic (NilDereference ChTemperature)).
Proof.
  split; [|split; [|split; [|split]]].
  - intros timestamps samples c index. induction index as [|index IH];
      intros tl sl Hindex Hscan; [lia|].
    cbn [leftScan] in Hscan.
    destruct (timestamps !! S index) as [t|] eqn:Et; [|discriminate].
    destruct (samples !! t) as [s|] eqn:Es; [|discriminate].
    destruct index as [|index].
    + inversion Hscan; subst. exists 1%nat. repeat split; auto.
    + destruct (bool_decide (is_Some (Field c s))).
      * inversion Hscan; subst. exists (S (S index)). repeat split; auto; lia.
      * destruct (IH tl sl ltac:(lia) Hscan) as (j & Hj & Htl & Hsl).
        exists j. repeat split; auto; lia.
  - vm_compute. reflexivity.
  - eexists. split; vm_compute; reflexivity.
  - eexists. split; vm_compute; reflexivity.
  - intros lib. vm_compute. reflexivity.
Qed.

(** C6, as the code has it: at a query timestamp equal to a stored timestamp
    [t], for a channel with a reading [v] in the sample stored at [t], the
    anchor is the index of [t] and both scans select that sample; when
    [InterpolateSample] returns a sample, its value for the channel is the
    blend of [v] with itself at the position [t / (t + t)], computed in
    binary64: there is no test for equal left and right timestamps that
    would skip the blend. *)
Theorem InterpolateSample_at_stored_timestamp (lib : GoLib) (hardware : Hardware)
    (hardwareId : string) (samples : gmap Z Sample) (timestamps : list Z)
    (index : nat) (t : Z) (s : Sample) (c : Channel) (v : float64)
    (at_ : time.Time) (result : Sample) :
  hardware !! hardwareId = Some samples ->
  timestampsOf samples timestamps ->
  timestamps !! index = Some t ->
  time.UnixMilli at_ = t ->
  samples !! t = Some s ->
  Field c s = Some v ->
  InterpolateSample lib hardware hardwareId at_ = Ok result ->
  anchorIndex timestamps (length timestamps) t = index
  /\ leftScan timestamps samples c index = Ok (t, s)
  /\ rightScan timestamps samples c (length timestamps) index = Ok (t, s)
  /\ Field c result = Some (blend (float64Arith lib) t t t v v).
Proof.
  intros Hdev Hslice Hindex Hat Hs Hv Hok.
  pose proof (anchorIndex_stored timestamps (proj1 Hslice) index t Hindex) as Hanchor.
  destruct (interpolateField_collapse lib samples timestamps t index c t s v Hindex Hs Hv)
    as (Hl & Hr & Hfield).
  repeat split; try assumption.
  destruct timestamps as [|first rest] eqn:Ets; [now rewrite lookup_nil in Hindex|].
  rewrite <- Ets in *.
  assert (Hfirst : timestamps !! 0%nat = Some first) by now rewrite Ets.
  destruct (last timestamps) as [lst|] eqn:Hlast;
    [|apply last_None in Hlast; congruence].
  rewrite (InterpolateSample_device lib hardware hardwareId samples timestamps first lst
             Hdev Hslice Hfirst Hlast) in Hok.
  destruct (outsideDensityBound _ _ _ _); [discriminate|].
  apply (foldl_setInterpolated_Ok _ _ _ _ channels_NoDup) in Hok as (Hin & _).
  destruct (Hin c (channels_all c)) as (v' & Hv' & Hres).
  rewrite Hat, Hanchor, Hfield in Hv'. congruence.
Qed.

Lemma InterpolateSample_at_stored_timestamp_witness :
  Field ChTemperature (denseSample 2000 belowThreeTenths)
  = Some (blend (float64Arith libAtHalfPi) 2000 2000 2000 threeTenths threeTenths).
Proof.
  apply (InterpolateSample_at_stored_timestamp libAtHalfPi fan1 "fan1" fan1Samples
           fiveTimestamps 2 2000 (denseSample 2000 threeTenths) ChTemperature threeTenths
           (atMillis 2000) (denseSample 2000 belowThreeTenths)
           eq_refl fan1_slice eq_refl eq_refl eq_refl eq_refl).
  vm_compute. reflexivity.
Defined.

(** C6, counterexample: fan1 has five samples, 2000 ms is a stored timestamp
    inside the density bound and the temperature stored there is 0.3; the
    sample returned holds 0.29999999999999993. On fan2, where only the
    temperature has readings, the same query returns no sample at all: it
    panics on the next field. *)
Lemma InterpolateSample_at_stored_timestamp_alters_value :
  size fan1Samples = 5%nat
  /\ (exists s, fan1Samples !! 2000 = Some s /\ Field ChTemperature s = Some threeTenths)
  /\ outsideDensityBound 0 4000 (averageInterval fiveTimestamps) (time.UnixMilli (atMillis 2000))
     = false
  /\ (exists result, InterpolateSample libAtHalfPi fan1 "fan1" (atMillis 2000) = Ok result
                     /\ Field ChTemperature result = Some belowThreeTenths)
  /\ belowThreeTenths <> threeTenths
  /\ (exists s, fan2Samples !! 2000 = Some s /\ Field ChTemperature s = Some threeTenths)
  /\ InterpolateSample libAtHalfPi fan2 "fan2" (atMillis 2000)
     = Panic (NilDereference ChPeakVelocityX).
Proof.
  repeat split; try (vm_compute; reflexivity); try discriminate;
    eexists; split; vm_compute; reflexivity.
Qed.



(** * Further properties of the sample store *)

(** ** SetValueByDataFile *)

(** X1: [SetValueByDataFile] succeeds exactly on the nine file names of the
    struct tags. On success the field tagged with the file name holds the
    value, and the other fields and the time are those of the receiver. *)
Theorem SetValueByDataFile_sets_tagged_field (sample : Sample) (targetFileName : string)
    (value : float64) :
  match SetValueByDataFile sample targetFileName value with
  | Some sample' =>
      exists c, fileTag c = targetFileName
                /\ Field c sample' = Some value
                /\ (forall c', c' <> c -> Field c' sample' = Field c' sample)
                /\ Time sample' = Time sample
  | None => forall c, fileTag c <> targetFileName
  end.
Proof.
  destruct (SetValueByDataFile sample targetFileName value) as [sample'|] eqn:E.
  - apply SetValueByDataFile_Some in E as (c & Hc & -> & _). exists c.
    split; [assumption|]. split; [apply Field_SetField_eq|]. split.
    + intros c' Hne. now apply Field_SetField_ne.
    + apply Time_SetField.
  - intros c Hc. subst targetFileName. now rewrite SetValueByDataFile_fileTag in E.
Qed.

(** X2: Two calls of [SetValueByDataFile] on one sample: for the files of two
    different channels the order of the calls does not matter; for the same
    file the second value replaces the first. *)
Theorem SetValueByDataFile_twice (sample : Sample) (c1 c2 : Channel) (v1 v2 : float64) :
  (sample1 ← SetValueByDataFile sample (fileTag c1) v1;
   SetValueByDataFile sample1 (fileTag c2) v2)
  = if decide (c1 = c2) then SetValueByDataFile sample (fileTag c2) v2
    else sample2 ← SetValueByDataFile sample (fileTag c2) v2;
         SetValueByDataFile sample2 (fileTag c1) v1.
Proof.
  rewrite !SetValueByDataFile_fileTag. cbn. rewrite !SetValueByDataFile_fileTag.
  destruct (decide (c1 = c2)) as [->|Hne]; cbn; rewrite ?SetValueByDataFile_fileTag; f_equal.
  - now destruct c2, sample.
  - symmetry. now apply SetField_comm.
Qed.

(** ** PopulateSamples *)

(** A row the read loop accepts: both conversions succeed and the name of
    its file is the tag of a field. *)
Definition acceptedWrite (w : RowWrite) : bool :=
  bool_decide (is_Some (rowTimestamp w.2)) && bool_decide (is_Some (rowValue w.2))
  && existsb (fun c => String.eqb (fileTag c) w.1.2) channels.

Lemma acceptedWrite_cases (w : RowWrite) :
  if acceptedWrite w
  then exists t c v, rowTimestamp w.2 = Some t /\ rowValue w.2 = Some v /\ fileTag c = w.1.2
                     /\ forall hw, ingestRow w.1.1 w.1.2 w.2 hw = Ok (put w.1.1 t c v hw)
  else forall hw, ingestRow w.1.1 w.1.2 w.2 hw = Panic PopulateFailure.
Proof.
  destruct w as [[hardwareId name] row]. unfold acceptedWrite. cbn [fst snd].
  set (known := existsb (fun c => String.eqb (fileTag c) name) channels).
  destruct (ingestRow_cases hardwareId name row) as [Hfail|(t & c & v & Ht & Hv & Hc & Hput)].
  - destruct (rowTimestamp row) as [t|] eqn:Et; cbn [bool_decide andb]; [|assumption].
    destruct (rowValue row) as [v|] eqn:Ev; [|assumption].
    destruct known eqn:Ex; [|assumption]. exfalso.
    apply existsb_exists in Ex as (c & _ & Hc). apply String.eqb_eq in Hc. subst name.
    specialize (Hfail ∅). unfold ingestRow in Hfail. rewrite Et, Ev in Hfail.
    now rewrite SetValueByDataFile_fileTag in Hfail.
  - rewrite Ht, Hv.
    replace known with true; [now exists t, c, v|].
    symmetry. apply existsb_exists. exists c. split.
    + apply list_elem_of_In, channels_all.
    + now apply String.eqb_eq.
Qed.


Lemma foldl_ingestWrite_fails (ws : list RowWrite) hw0 :
  forallb acceptedWrite ws = false -> foldl ingestWrite (Ok hw0) ws = Panic PopulateFailure.
Proof.
  revert hw0. induction ws as [|w ws IH]; intros hw0 Hall; [discriminate|].
  cbn in Hall. cbn [foldl]. unfold ingestWrite at 2. cbn.
  pose proof (acceptedWrite_cases w) as Hcases.
  destruct (acceptedWrite w).
  - destruct Hcases as (t & c & v & _ & _ & _ & Hput). rewrite Hput. now apply IH.
  - rewrite Hcases. apply foldl_ingestWrite_Panic.
Qed.


(** ** The store PopulateSamples builds *)

(** [hardware[hardwareId][timestamp]], when both keys are present. *)
Definition storedAt (hardware : Hardware) (hardwareId : string) (timestamp : Z)
  : option Sample :=
  samples ← hardware !! hardwareId; samples !! timestamp.

(** The reading of a channel in the sample stored for a device and a
    timestamp, when there is one. *)
Definition reading (hardware : Hardware) (hardwareId : string) (timestamp : Z) (c : Channel)
  : option float64 :=
  sample ← storedAt hardware hardwareId timestamp; Field c sample.

(** The device and timestamp of a row, when the timestamp converts. *)
Definition sampleKey (w : RowWrite) : option (string * Z) :=
  t ← rowTimestamp w.2; Some (w.1.1, t).

(** The devices and timestamps the rows of a walk name. *)
Definition sampleKeys (ws : list RowWrite) : gset (string * Z) :=
  list_to_set (omap sampleKey ws).

Lemma storedAt_default hw hardwareId t :
  default ∅ (hw !! hardwareId) !! t = storedAt hw hardwareId t.
Proof. unfold storedAt. destruct (hw !! hardwareId); [reflexivity|apply lookup_empty]. Qed.

Lemma storedAt_put hardwareId t c v hw hardwareId' t' :
  storedAt (put hardwareId t c v hw) hardwareId' t'
  = if decide ((hardwareId', t') = (hardwareId, t))
    then Some (SetField c v (default (emptySample (time.FromUnixMilli t))
                                     (storedAt hw hardwareId t)))
    else storedAt hw hardwareId' t'.
Proof.
  unfold put. rewrite storedAt_default. unfold storedAt at 1.
  destruct (decide ((hardwareId', t') = (hardwareId, t))) as [Heq|Hne].
  - inversion Heq; subst. rewrite lookup_insert_eq. cbn. now rewrite lookup_insert_eq.
  - destruct (decide (hardwareId' = hardwareId)) as [->|Hid].
    + rewrite lookup_insert_eq. cbn. rewrite lookup_insert_ne by congruence.
      apply storedAt_default.
    + now rewrite lookup_insert_ne by congruence.
Qed.

Lemma put_nonempty hardwareId t c v hw :
  (forall id samples, hw !! id = Some samples -> samples <> ∅) ->
  forall id samples, put hardwareId t c v hw !! id = Some samples -> samples <> ∅.
Proof.
  intros Hinv id samples. unfold put.
  destruct (decide (id = hardwareId)) as [->|Hne].
  - rewrite lookup_insert_eq. intros H. inversion H. apply insert_non_empty.
  - rewrite lookup_insert_ne by congruence. apply Hinv.
Qed.

Lemma SampleCount_insert (hw : Hardware) hardwareId (samples' : gmap Z Sample) :
  (SampleCount (<[hardwareId := samples']> hw) + size (default ∅ (hw !! hardwareId))
   = SampleCount hw + size samples')%nat.
Proof.
  unfold SampleCount. destruct (hw !! hardwareId) as [samples|] eqn:E; cbn.
  - rewrite <- insert_delete_eq.
    rewrite map_fold_insert_L; [|intros; lia|apply lookup_delete_eq].
    rewrite (map_fold_delete_L _ _ hardwareId samples hw); [lia|intros; lia|assumption].
  - rewrite map_fold_insert_L; [|intros; lia|assumption]. rewrite map_size_empty. lia.
Qed.

Lemma SampleCount_put hardwareId t c v hw :
  SampleCount (put hardwareId t c v hw)
  = match storedAt hw hardwareId t with
    | Some _ => SampleCount hw
    | None => S (SampleCount hw)
    end.
Proof.
  unfold put. pose proof (SampleCount_insert hw hardwareId
    (<[t := SetField c v (default (emptySample (time.FromUnixMilli t))
                            (default ∅ (hw !! hardwareId) !! t))]>
       (default ∅ (hw !! hardwareId)))) as H.
  pose proof (storedAt_default hw hardwareId t) as Hst.
  destruct (storedAt hw hardwareId t) as [s0|].
  - rewrite map_size_insert_Some in H by (rewrite Hst; eauto). lia.
  - rewrite map_size_insert_None in H by assumption. lia.
Qed.

Lemma elem_of_sampleKeys (ws : list RowWrite) hardwareId t :
  (hardwareId, t) ∈ sampleKeys ws
  <-> exists w, w ∈ ws /\ w.1.1 = hardwareId /\ rowTimestamp w.2 = Some t.
Proof.
  unfold sampleKeys. rewrite elem_of_list_to_set, list_elem_of_omap. split.
  - intros (w & Hin & Hkey). exists w. split; [assumption|]. unfold sampleKey in Hkey.
    destruct (rowTimestamp w.2); cbn in Hkey; [|discriminate]. inversion Hkey. auto.
  - intros (w & Hin & Hid & Ht). exists w. split; [assumption|]. unfold sampleKey.
    rewrite Ht. cbn. now rewrite Hid.
Qed.

Lemma sampleKeys_snoc (ws : list RowWrite) w t :
  rowTimestamp w.2 = Some t -> sampleKeys (ws ++ [w]) = sampleKeys ws ∪ {[(w.1.1, t)]}.
Proof.
  intros Ht. unfold sampleKeys. rewrite omap_app, list_to_set_app_L. f_equal.
  cbn. unfold sampleKey at 1. rewrite Ht. cbn. apply union_empty_r_L.
Qed.

(** The last step of a walk that succeeds is a [put]. *)
Lemma foldl_ingestWrite_snoc (ws : list RowWrite) w hw0 hw :
  foldl ingestWrite (Ok hw0) (ws ++ [w]) = Ok hw ->
  exists hw1 t c v,
    foldl ingestWrite (Ok hw0) ws = Ok hw1
    /\ rowTimestamp w.2 = Some t /\ rowValue w.2 = Some v /\ fileTag c = w.1.2
    /\ hw = put w.1.1 t c v hw1.
Proof.
  rewrite foldl_app. cbn [foldl].
  destruct (foldl ingestWrite (Ok hw0) ws) as [hw1|e|p]; try discriminate.
  unfold ingestWrite. cbn.
  destruct (ingestRow_cases w.1.1 w.1.2 w.2) as [Hfail|(t & c & v & Ht & Hv & Hc & Hput)].
  - now rewrite Hfail.
  - rewrite Hput. intros H. inversion H. now exists hw1, t, c, v.
Qed.

(** What holds of the store after a walk over the rows [ws]. *)
Definition populatedBy (ws : list RowWrite) (hw : Hardware) : Prop :=
  (forall hardwareId samples, hw !! hardwareId = Some samples -> samples <> ∅)
  /\ (forall hardwareId t, is_Some (storedAt hw hardwareId t) <-> (hardwareId, t) ∈ sampleKeys ws)
  /\ (forall hardwareId t s, storedAt hw hardwareId t = Some s ->
        Time s = time.FromUnixMilli t /\ exists c, is_Some (Field c s))
  /\ SampleCount hw = size (sampleKeys ws).

Lemma foldl_ingestWrite_populatedBy (ws : list RowWrite) hw :
  foldl ingestWrite (Ok ∅) ws = Ok hw -> populatedBy ws hw.
Proof.
  revert hw. induction ws as [|w ws IH] using rev_ind; intros hw Hfold.
  - cbn in Hfold. inversion Hfold; subst. repeat split.
    + intros id samples H. now rewrite lookup_empty in H.
    + unfold storedAt. rewrite lookup_empty. cbn. now intros [? ?].
    + intros H. now apply elem_of_empty in H.
    + unfold storedAt in H. rewrite lookup_empty in H. discriminate.
    + unfold storedAt in H. rewrite lookup_empty in H. discriminate.
  - apply foldl_ingestWrite_snoc in Hfold as (hw1 & t & c & v & Hws & Ht & Hv & Hc & ->).
    destruct (IH hw1 Hws) as (Hne & Hdom & Hsample & Hcount).
    pose proof (sampleKeys_snoc ws w t Ht) as Hkeys.
    unfold populatedBy. unfold RowWrite in *. rewrite Hkeys. repeat split.
    + now apply put_nonempty.
    + rewrite storedAt_put, elem_of_union, elem_of_singleton.
      destruct (decide _) as [Heq|Hneq]; [now right|].
      intros H. left. now apply Hdom.
    + rewrite storedAt_put, elem_of_union, elem_of_singleton.
      destruct (decide _) as [Heq|Hneq]; [eauto|].
      intros [H|H]; [now apply Hdom|contradiction].
    + rewrite storedAt_put in H. destruct (decide _) as [Heq|Hneq]; [|now apply Hsample in H].
      inversion Heq; subst. inversion H; subst. rewrite Time_SetField.
      destruct (storedAt hw1 w.1.1 t) as [s0|] eqn:E; [|reflexivity].
      now apply Hsample in E.
    + rewrite storedAt_put in H. destruct (decide _) as [Heq|Hneq]; [|now apply Hsample in H].
      inversion H; subst. exists c. rewrite Field_SetField_eq. eauto.
    + rewrite SampleCount_put, Hcount.
      destruct (storedAt hw1 w.1.1 t) as [s0|] eqn:E.
      * assert (Hin : (w.1.1, t) ∈ sampleKeys ws) by (apply Hdom; rewrite E; eauto).
        f_equal. symmetry. rewrite (comm_L (∪)).
        apply subseteq_union_1_L. now apply singleton_subseteq_l.
      * assert (Hnotin : (w.1.1, t) ∉ sampleKeys ws).
        { intros Hin. apply Hdom in Hin. rewrite E in Hin. now destruct Hin. }
        rewrite size_union by now apply disjoint_singleton_r.
        rewrite size_singleton. lia.
Qed.

Lemma foldl_ingestWrite_accepted (ws : list RowWrite) hw0 hw w :
  foldl ingestWrite (Ok hw0) ws = Ok hw -> w ∈ ws -> acceptedWrite w = true.
Proof.
  intros Hfold Hin. destruct (forallb acceptedWrite ws) eqn:E.
  - rewrite forallb_forall in E. apply E. now apply list_elem_of_In.
  - rewrite (foldl_ingestWrite_fails ws hw0 E) in Hfold. discriminate.
Qed.

(** X4: After [PopulateSamples], [HasSamples] holds of a device exactly when
    some file of its directory has a row: a directory whose files are all
    empty leaves no device behind. *)
Theorem HasSamples_after_PopulateSamples (files : list DataFile) (hardware : Hardware)
    (hardwareId : string) :
  PopulateSamples files = Ok hardware ->
  HasSamples hardware hardwareId = true
  <-> exists w, w ∈ rowsOf files /\ w.1.1 = hardwareId.
Proof.
  rewrite PopulateSamples_writes. intros Hfold.
  destruct (foldl_ingestWrite_populatedBy _ _ Hfold) as (Hne & Hdom & _).
  unfold HasSamples. rewrite bool_decide_eq_true. split.
  - intros [samples Hdev]. destruct (map_choose samples (Hne _ _ Hdev)) as (t & s & Hs).
    assert (Hin : (hardwareId, t) ∈ sampleKeys (rowsOf files)).
    { apply Hdom. unfold storedAt. rewrite Hdev. cbn. rewrite Hs. eauto. }
    apply elem_of_sampleKeys in Hin as (w & Hin & Hid & _). eauto.
  - intros (w & Hin & Hid).
    pose proof (foldl_ingestWrite_accepted _ _ _ w Hfold Hin) as Hacc.
    pose proof (acceptedWrite_cases w) as Hcases. rewrite Hacc in Hcases.
    destruct Hcases as (t & _ & _ & Ht & _).
    assert (Hkey : (hardwareId, t) ∈ sampleKeys (rowsOf files))
      by (apply elem_of_sampleKeys; eauto).
    apply Hdom in Hkey as [s Hs]. unfold storedAt in Hs.
    destruct (hardware !! hardwareId); [eauto|discriminate].
Qed.

Lemma HasSamples_after_PopulateSamples_witness :
  HasSamples twoChannelStore "fan1" = true
  <-> exists w, w ∈ rowsOf twoChannelFiles /\ w.1.1 = "fan1".
Proof.
  apply (HasSamples_after_PopulateSamples twoChannelFiles twoChannelStore "fan1").
  vm_compute. reflexivity.
Defined.

(** X5: The store [PopulateSamples] builds has no empty device, and each of its
    samples carries the instant of its key as [Time], holds at least one
    reading, and is stored under a device and a timestamp that a row names. *)
Theorem PopulateSamples_store_invariant (files : list DataFile) (hardware : Hardware) :
  PopulateSamples files = Ok hardware ->
  forall hardwareId samples,
    hardware !! hardwareId = Some samples ->
    samples <> ∅
    /\ forall t sample,
         samples !! t = Some sample ->
         Time sample = time.FromUnixMilli t
         /\ (exists c, is_Some (Field c sample))
         /\ exists w, w ∈ rowsOf files /\ w.1.1 = hardwareId /\ rowTimestamp w.2 = Some t.
Proof.
  rewrite PopulateSamples_writes. intros Hfold hardwareId samples Hdev.
  destruct (foldl_ingestWrite_populatedBy _ _ Hfold) as (Hne & Hdom & Hsample & _).
  split; [now apply (Hne hardwareId)|]. intros t s Hs.
  assert (Hst : storedAt hardware hardwareId t = Some s)
    by (unfold storedAt; rewrite Hdev; exact Hs).
  destruct (Hsample _ _ _ Hst) as [Htime Hfield]. repeat split; try assumption.
  apply elem_of_sampleKeys, Hdom. rewrite Hst. eauto.
Qed.

Lemma PopulateSamples_store_invariant_witness :
  default ∅ (twoChannelStore !! "fan1") <> ∅
  /\ Time (default (emptySample 0) (default ∅ (twoChannelStore !! "fan1") !! 1000))
     = time.FromUnixMilli 1000.
Proof.
  destruct (PopulateSamples_store_invariant twoChannelFiles twoChannelStore
              ltac:(vm_compute; reflexivity) "fan1" _ eq_refl) as [Hne Hall].
  split; [exact Hne|]. exact (proj1 (Hall 1000 _ eq_refl)).
Defined.

(** X6: After [PopulateSamples], [SampleCount] is the number of distinct pairs of
    a device and a timestamp among the rows: rows of different channel files
    for one timestamp, and repeated rows, count once. *)
Theorem SampleCount_after_PopulateSamples (files : list DataFile) (hardware : Hardware) :
  PopulateSamples files = Ok hardware ->
  SampleCount hardware = size (sampleKeys (rowsOf files)).
Proof.
  rewrite PopulateSamples_writes. intros Hfold.
  now destruct (foldl_ingestWrite_populatedBy _ _ Hfold) as (_ & _ & _ & Hcount).
Qed.

Lemma SampleCount_after_PopulateSamples_witness :
  SampleCount twoChannelStore = size (sampleKeys (rowsOf twoChannelFiles)).
Proof.
  apply (SampleCount_after_PopulateSamples twoChannelFiles twoChannelStore).
  vm_compute. reflexivity.
Defined.

Lemma reading_put hardwareId t c v hw hardwareId' t' c' :
  reading (put hardwareId t c v hw) hardwareId' t' c'
  = if decide ((hardwareId', t', c') = (hardwareId, t, c)) then Some v
    else reading hw hardwareId' t' c'.
Proof.
  unfold reading. rewrite storedAt_put.
  destruct (decide ((hardwareId', t') = (hardwareId, t))) as [Heq|Hne].
  - inversion Heq; subst. cbn. destruct (decide (c' = c)) as [->|Hc].
    + rewrite decide_True by reflexivity. apply Field_SetField_eq.
    + rewrite decide_False by congruence. rewrite Field_SetField_ne by congruence.
      destruct (storedAt hw hardwareId t); [reflexivity|now destruct c'].
  - rewrite decide_False by congruence. reflexivity.
Qed.

(** Rows written to other triplets leave a reading as it is. *)
Lemma foldl_ingestWrite_frame (ws : list RowWrite) hw0 hw hardwareId t c :
  foldl ingestWrite (Ok hw0) ws = Ok hw ->
  (forall w, w ∈ ws -> writeKey w <> (hardwareId, Some t, fileTag c)) ->
  reading hw hardwareId t c = reading hw0 hardwareId t c.
Proof.
  revert hw0. induction ws as [|w ws IH]; intros hw0 Hfold Hkeys.
  - cbn in Hfold. now inversion Hfold.
  - cbn [foldl] in Hfold. unfold ingestWrite at 2 in Hfold. cbn in Hfold.
    destruct (ingestRow_cases w.1.1 w.1.2 w.2) as [Hfail|(t' & c' & v' & Ht & _ & Hc & Hput)].
    + rewrite Hfail, foldl_ingestWrite_Panic in Hfold. discriminate.
    + rewrite Hput in Hfold. rewrite (IH _ Hfold).
      * rewrite reading_put. apply decide_False. intros Heq. inversion Heq; subst.
        apply (Hkeys w); [apply list_elem_of_here|]. unfold writeKey. now rewrite Ht, Hc.
      * intros w' Hin. apply Hkeys. now apply list_elem_of_further.
Qed.

(** X7: When several rows write the same channel of the same device at the same
    timestamp, the store holds the value of the last of them. *)
Theorem PopulateSamples_last_row_wins (files : list DataFile) (hardware : Hardware)
    (before after : list RowWrite) (hardwareId : string) (t : Z) (c : Channel) (v : float64) :
  PopulateSamples files = Ok hardware ->
  rowsOf files = before ++ (hardwareId, fileTag c, mkRow (Some t) (Some v)) :: after ->
  (forall w, w ∈ after -> writeKey w <> (hardwareId, Some t, fileTag c)) ->
  reading hardware hardwareId t c = Some v.
Proof.
  rewrite PopulateSamples_writes. intros Hfold Hrows Hafter.
  rewrite Hrows, foldl_app in Hfold. cbn [foldl] in Hfold.
  destruct (foldl ingestWrite (Ok ∅) before) as [hw1|e|p].
  - unfold ingestWrite at 2 in Hfold. cbn in Hfold. unfold ingestRow in Hfold. cbn in Hfold.
    rewrite SetValueByDataFile_fileTag in Hfold.
    fold (put hardwareId t c v hw1) in Hfold.
    rewrite (foldl_ingestWrite_frame _ _ _ _ _ _ Hfold Hafter), reading_put.
    now apply decide_True.
  - cbn in Hfold. now rewrite foldl_ingestWrite_Err in Hfold.
  - cbn in Hfold. now rewrite foldl_ingestWrite_Panic in Hfold.
Qed.

Lemma PopulateSamples_last_row_wins_witness :
  reading rewrittenStore "fan1" 1000 ChTemperature = Some belowThreeTenths.
Proof.
  apply (PopulateSamples_last_row_wins rewrittenFiles rewrittenStore
           [("fan1", "temperature.csv", mkRow (Some 1000) (Some threeTenths))] []).
  - vm_compute. reflexivity.
  - reflexivity.
  - intros w Hin. now apply elem_of_nil in Hin.
Defined.

(** * Further properties of InterpolateSample *)

(** X8: [InterpolateSample] returns the unknown-device error exactly when
    [HasSamples] is false of the device. *)
Theorem InterpolateSample_UnknownDevice_iff (lib : GoLib) (hardware : Hardware)
    (hardwareId : string) (at_ : time.Time) :
  InterpolateSample lib hardware hardwareId at_ = Err UnknownDevice
  <-> HasSamples hardware hardwareId = false.
Proof.
  unfold InterpolateSample, HasSamples. rewrite bool_decide_eq_false.
  destruct (hardware !! hardwareId) as [samples|].
  - split; [|intros H; exfalso; apply H; eauto]. cbn zeta.
    destruct (sortedTimestamps samples !! 0%nat); [|discriminate].
    destruct (sortedTimestamps samples !! (size samples - 1)%nat); [|discriminate].
    destruct (outsideDensityBound _ _ _ _); [discriminate|].
    intros Herr. exfalso. revert Herr.
    apply foldl_setInterpolated_not_Err; [|discriminate].
    intros c. apply interpolateField_not_Err.
  - split; [|reflexivity]. intros _ [s Hs]. discriminate.
Qed.

(** X9: A sample [InterpolateSample] returns carries the queried instant as its
    [Time] and a reading for every channel: no field is left nil. *)
Theorem InterpolateSample_returns_full_sample (lib : GoLib) (hardware : Hardware)
    (hardwareId : string) (at_ : time.Time) (result : Sample) :
  InterpolateSample lib hardware hardwareId at_ = Ok result ->
  Time result = at_ /\ forall c, is_Some (Field c result).
Proof.
  unfold InterpolateSample. destruct (hardware !! hardwareId) as [samples|]; [|discriminate].
  cbn zeta. destruct (sortedTimestamps samples !! 0%nat); [|discriminate].
  destruct (sortedTimestamps samples !! (size samples - 1)%nat); [|discriminate].
  destruct (outsideDensityBound _ _ _ _); [discriminate|]. intros Hok.
  apply (foldl_setInterpolated_Ok _ _ _ _ channels_NoDup) in Hok as (Hin & _ & Htime).
  split; [exact Htime|]. intros c. destruct (Hin c (channels_all c)) as (v & _ & Hv). eauto.
Qed.

Lemma InterpolateSample_returns_full_sample_witness :
  Time (denseSample 2000 belowThreeTenths) = atMillis 2000
  /\ forall c, is_Some (Field c (denseSample 2000 belowThreeTenths)).
Proof.
  apply (InterpolateSample_returns_full_sample libAtHalfPi fan1 "fan1").
  vm_compute. reflexivity.
Defined.

(** X10: On a device with at least one sample and timestamps within 2^51 ms of
    the epoch, the only panic of [InterpolateSample] is the dereference of a
    nil reading that the device does hold: no index leaves the slice of
    timestamps and no sample is missing under a timestamp. *)
Theorem InterpolateSample_panics_on_nil_reading_only (lib : GoLib) (hardware : Hardware)
    (hardwareId : string) (samples : gmap Z Sample) (timestamps : list Z)
    (first lst : Z) (at_ : time.Time) (p : panic) :
  hardware !! hardwareId = Some samples ->
  timestampsOf samples timestamps ->
  Forall smallTimestamp timestamps ->
  timestamps !! 0%nat = Some first ->
  last timestamps = Some lst ->
  InterpolateSample lib hardware hardwareId at_ = Panic p ->
  exists c t s, p = NilDereference c /\ samples !! t = Some s /\ Field c s = None.
Proof.
  intros Hdev Hslice Hsmall Hfirst Hlast.
  rewrite (InterpolateSample_device lib hardware hardwareId samples timestamps first lst
             Hdev Hslice Hfirst Hlast).
  destruct (outsideDensityBound _ _ _ _) eqn:Hat; [discriminate|].
  pose proof (anchor_in_slice samples timestamps first lst Hslice Hsmall Hfirst Hlast at_ Hat)
    as Hanchor.
  set (atSampleValue := interpolateField lib timestamps samples (length timestamps)
                          (time.UnixMilli at_)
                          (anchorIndex timestamps (length timestamps) (time.UnixMilli at_))).
  destruct (foldl_setInterpolated_first_panic atSampleValue channels (emptySample at_))
    as [[s Hok]|(c & _ & Hc & Hfold)].
  - intros c _. now apply (interpolateField_cases lib samples timestamps Hslice).
  - unfold interpolateFields. rewrite Hok. discriminate.
  - unfold interpolateFields. rewrite Hfold. intros H. inversion H; subst.
    destruct (interpolateField_nil lib samples timestamps Hslice _ _ c Hanchor Hc)
      as (t & s & Hs & Hnil).
    exists c, t, s. repeat split; assumption.
Qed.

Lemma InterpolateSample_panics_on_nil_reading_only_witness :
  exists c t s, NilDereference ChTemperature = NilDereference c
                /\ fan3Samples !! t = Some s /\ Field c s = None.
Proof.
  apply (InterpolateSample_panics_on_nil_reading_only libAtHalfPi fan3 "fan3" fan3Samples
           fiveTimestamps 0 4000 (atMillis 1000) (NilDereference ChTemperature)
           eq_refl fan3_slice smallTimestamp_five eq_refl eq_refl).
  vm_compute. reflexivity.
Defined.

(** X11: On a device with at least two samples whose timestamps, within 2^51 ms
    of the epoch, span at least as many milliseconds as there are samples,
    the queries at the first and at the last stored timestamp are rejected
    with the density error. *)
Theorem InterpolateSample_rejects_end_samples (lib : GoLib) (hardware : Hardware)
    (hardwareId : string) (samples : gmap Z Sample) (timestamps : list Z)
    (first lst : Z) (at_ : time.Time) :
  hardware !! hardwareId = Some samples ->
  timestampsOf samples timestamps ->
  Forall smallTimestamp timestamps ->
  timestamps !! 0%nat = Some first ->
  last timestamps = Some lst ->
  Z.of_nat (length timestamps) <= lst - first ->
  time.UnixMilli at_ = first \/ time.UnixMilli at_ = lst ->
  InterpolateSample lib hardware hardwareId at_ = Err InsufficientDensity.
Proof.
  intros Hdev Hslice Hsmall Hfirst Hlast Hspan Hat.
  destruct (slice_average samples timestamps first lst Hslice Hsmall Hfirst Hlast)
    as (Havg & Hrange & _ & Hf & Hl).
  apply (InsufficientDensity_iff lib hardware hardwareId samples timestamps first lst
           Hdev Hslice Hfirst Hlast).
  apply not_false_iff_true.
  rewrite (outsideDensityBound_spec first lst _ _ Hf Hl Hrange).
  assert (Hn : 0 < Z.of_nat (length timestamps)).
  { destruct timestamps; [discriminate|cbn [length]; lia]. }
  assert (Hpos : 1 <= averageInterval timestamps).
  { rewrite Havg. apply Z.div_le_lower_bound; lia. }
  lia.
Qed.

Lemma InterpolateSample_rejects_end_samples_witness :
  InterpolateSample libAtHalfPi fan1 "fan1" (atMillis 4000) = Err InsufficientDensity.
Proof.
  apply (InterpolateSample_rejects_end_samples libAtHalfPi fan1 "fan1" fan1Samples
           fiveTimestamps 0 4000 (atMillis 4000)
           eq_refl fan1_slice smallTimestamp_five eq_refl eq_refl).
  - vm_compute. discriminate.
  - right. reflexivity.
Defined.




(** ** The scans as they run *)

(** X13: The backward scan, on a slice whose timestamps all have a sample: from
    the anchor it selects the highest position, not below position 1 (or the
    anchor itself when the anchor is 0), at which the sample has a reading
    for the channel; when there is none it selects the lowest position it
    examines, position 1 or the anchor 0, with its nil reading. *)
Theorem leftScan_selects (timestamps : list Z) (samples : gmap Z Sample) (c : Channel)
    (atSampleIndex : nat) :
  (forall t, t ∈ timestamps -> is_Some (samples !! t)) ->
  (atSampleIndex < length timestamps)%nat ->
  exists leftSampleIndex leftTimestamp leftSample,
    leftScan timestamps samples c atSampleIndex = Ok (leftTimestamp, leftSample)
    /\ timestamps !! leftSampleIndex = Some leftTimestamp
    /\ samples !! leftTimestamp = Some leftSample
    /\ (Nat.min 1 atSampleIndex <= leftSampleIndex <= atSampleIndex)%nat
    /\ (forall k, (leftSampleIndex < k <= atSampleIndex)%nat -> nilAt timestamps samples c k)
    /\ (is_Some (Field c leftSample) \/ leftSampleIndex = Nat.min 1 atSampleIndex).
Proof. intros Hkeys Hlt. exact (leftScan_spec timestamps samples c Hkeys atSampleIndex Hlt). Qed.

Lemma leftScan_selects_witness :
  exists leftSampleIndex leftTimestamp leftSample,
    leftScan fiveTimestamps fan3Samples ChTemperature 1 = Ok (leftTimestamp, leftSample)
    /\ fiveTimestamps !! leftSampleIndex = Some leftTimestamp
    /\ fan3Samples !! leftTimestamp = Some leftSample
    /\ (Nat.min 1 1 <= leftSampleIndex <= 1)%nat
    /\ (forall k, (leftSampleIndex < k <= 1)%nat -> nilAt fiveTimestamps fan3Samples ChTemperature k)
    /\ (is_Some (Field ChTemperature leftSample) \/ leftSampleIndex = Nat.min 1 1).
Proof.
  apply (leftScan_selects fiveTimestamps fan3Samples ChTemperature 1).
  - apply (slice_keys fan3Samples fiveTimestamps fan3_slice).
  - vm_compute. lia.
Defined.

(** X14: The forward scan, on a slice of [n] timestamps that all have a sample:
    from the anchor it selects the lowest position, not above position [n-2]
    (or the anchor itself when the anchor is [n-1]), at which the sample has
    a reading for the channel; when there is none it selects the highest
    position it examines, with its nil reading. The sample of position [n-1]
    is selected only when it is the anchor. *)
Theorem rightScan_selects (timestamps : list Z) (samples : gmap Z Sample) (c : Channel)
    (atSampleIndex : nat) :
  (forall t, t ∈ timestamps -> is_Some (samples !! t)) ->
  (atSampleIndex < length timestamps)%nat ->
  exists rightSampleIndex rightTimestamp rightSample,
    rightScan timestamps samples c (length timestamps) atSampleIndex
      = Ok (rightTimestamp, rightSample)
    /\ timestamps !! rightSampleIndex = Some rightTimestamp
    /\ samples !! rightTimestamp = Some rightSample
    /\ (atSampleIndex <= rightSampleIndex
        <= Nat.max atSampleIndex (length timestamps - 2))%nat
    /\ (forall k, (atSampleIndex <= k < rightSampleIndex)%nat -> nilAt timestamps samples c k)
    /\ (is_Some (Field c rightSample)
        \/ rightSampleIndex = Nat.max atSampleIndex (length timestamps - 2)).
Proof. intros Hkeys Hlt. exact (rightScan_spec timestamps samples c Hkeys atSampleIndex Hlt). Qed.

Lemma rightScan_selects_witness :
  exists rightSampleIndex rightTimestamp rightSample,
    rightScan fiveTimestamps fan3Samples ChTemperature (length fiveTimestamps) 1
      = Ok (rightTimestamp, rightSample)
    /\ fiveTimestamps !! rightSampleIndex = Some rightTimestamp
    /\ fan3Samples !! rightTimestamp = Some rightSample
    /\ (1 <= rightSampleIndex <= Nat.max 1 (length fiveTimestamps - 2))%nat
    /\ (forall k, (1 <= k < rightSampleIndex)%nat -> nilAt fiveTimestamps fan3Samples ChTemperature k)
    /\ (is_Some (Field ChTemperature rightSample)
        \/ rightSampleIndex = Nat.max 1 (length fiveTimestamps - 2)).
Proof.
  apply (rightScan_selects fiveTimestamps fan3Samples ChTemperature 1).
  - apply (slice_keys fan3Samples fiveTimestamps fan3_slice).
  - vm_compute. lia.
Defined.

(** * Further properties of the handler *)

(** A loop that ends normally has run no turn. *)
Lemma tabulate_Ok lib hardware requestData fuel timestamp tabulatedHardware result :
  tabulate lib hardware requestData fuel timestamp tabulatedHardware = Some (Ok result) ->
  time.Before timestamp (To requestData) = false /\ result = tabulatedHardware.
Proof.
  revert tabulatedHardware. induction fuel as [|fuel IH]; intros tab; [discriminate|].
  cbn [tabulate]. unfold loopIteration.
  destruct (time.Before timestamp (To requestData)) eqn:Hbefore.
  - destruct (InterpolateSample lib hardware (Id requestData) timestamp);
      [|intros H; inversion H..].
    destruct (postStatement requestData timestamp); [|intros H; inversion H].
    intros H. apply IH in H as [H _]. congruence.
  - intros H. inversion H. auto.
Qed.

(** X15: Whatever the store and the request are, a table [Handle] responds with
    is empty, and it is sent with status 200 for a request whose [from] is
    not before its [to]: the handler never answers with an entry. *)
Theorem Handle_never_responds_with_an_entry (lib : GoLib) (hardware : Hardware) (fuel : nat)
    (request : Request) (status : Z) (tabulatedHardware : gmap string Sample) :
  Handle lib hardware fuel request = Some (Responded status (Tabulated tabulatedHardware)) ->
  status = StatusOK /\ tabulatedHardware = ∅
  /\ exists requestData, Body request = Some requestData
                         /\ time.Before (From requestData) (To requestData) = false.
Proof.
  unfold Handle.
  destruct (String.eqb (URL_Path request) "/api/tabulated_hardware"); [|discriminate].
  destruct (String.eqb (Method request) "POST"); [|discriminate].
  destruct (Body request) as [requestData|]; [|discriminate].
  destruct (negb (HasSamples hardware (Id requestData))); [discriminate|].
  destruct (tabulate lib hardware requestData fuel (From requestData) ∅) as [[tab|e|p]|] eqn:E;
    try discriminate.
  apply tabulate_Ok in E as [Hbefore ->].
  destruct (marshalable ∅); [|discriminate]. intros H. inversion H. eauto.
Qed.

Lemma Handle_never_responds_with_an_entry_witness :
  StatusOK = StatusOK /\ (∅ : gmap string Sample) = ∅
  /\ exists requestData, Body (tabulationRequest "fan1" 1000 1000 3) = Some requestData
                         /\ time.Before (From requestData) (To requestData) = false.
Proof.
  apply (Handle_never_responds_with_an_entry libAtHalfPi fan1 1
           (tabulationRequest "fan1" 1000 1000 3)).
  vm_compute. reflexivity.
Defined.

(** X16: With [count] not 0, the first turn of the loop decides what a POST to
    the tabulation path gets: status 500 for an unknown device or when the
    sample at [from] is refused, the panic of that interpolation when it
    panics, the empty table when [from] is not before [to]; and when the
    sample at [from] is interpolated the handler gives no answer (the loop
    does not end). *)
Theorem Handle_first_turn_decides (lib : GoLib) (hardware : Hardware) (fuel : nat)
    (requestData : TabulatedHardwareRequestData) :
  Count requestData <> 0 ->
  Handle lib hardware (S fuel) (mkRequest "/api/tabulated_hardware" "POST" (Some requestData))
  = if negb (HasSamples hardware (Id requestData))
    then Some (Responded StatusInternalServerError NoBody)
    else if time.Before (From requestData) (To requestData) then
           match InterpolateSample lib hardware (Id requestData) (From requestData) with
           | Ok _ => None
           | Err _ => Some (Responded StatusInternalServerError NoBody)
           | Panic p => Some (Panicked p)
           end
         else Some (Responded StatusOK (Tabulated ∅)).
Proof.
  intros Hcount. unfold Handle.
  cbn [URL_Path Method Body String.eqb Ascii.eqb Bool.eqb].
  destruct (negb (HasSamples hardware (Id requestData))); [reflexivity|].
  destruct (time.Before (From requestData) (To requestData)) eqn:Hbefore.
  - destruct (InterpolateSample lib hardware (Id requestData) (From requestData))
      as [sample|e|p] eqn:Hsample.
    + now rewrite (tabulate_diverges lib hardware requestData sample Hbefore Hsample Hcount).
    + cbn [tabulate]. unfold loopIteration. now rewrite Hbefore, Hsample.
    + cbn [tabulate]. unfold loopIteration. now rewrite Hbefore, Hsample.
  - cbn [tabulate]. unfold loopIteration. now rewrite Hbefore.
Qed.

Lemma Handle_first_turn_decides_witness :
  Handle libAtHalfPi fan1 1 (tabulationRequest "fan1" 0 4000 3)
  = Some (Responded StatusInternalServerError NoBody).
Proof.
  unfold tabulationRequest.
  rewrite (Handle_first_turn_decides libAtHalfPi fan1 0 (tabulationData "fan1" 0 4000 3)
             ltac:(discriminate)).
  vm_compute. reflexivity.
Defined.

(** X17: the requests [Handle] answers without entering the loop, whatever
    the store holds beyond the presence of the device. Any path other than
    the tabulation path gets the welcome text; on the tabulation path a
    method other than POST gets an empty answer with status 200, and a POST
    gets status 500 when its body cannot be read or decoded, or when
    [HasSamples] is false of the device it names. *)
Theorem Handle_answers_without_tabulating (lib : GoLib) (hardware : Hardware) (fuel : nat)
    (request : Request) :
  (URL_Path request <> "/api/tabulated_hardware" ->
   Handle lib hardware fuel request = Some (Responded StatusOK Welcome))
  /\ (URL_Path request = "/api/tabulated_hardware" -> Method request <> "POST" ->
      Handle lib hardware fuel request = Some (Responded StatusOK NoBody))
  /\ (URL_Path request = "/api/tabulated_hardware" -> Method request = "POST" ->
      match Body request with
      | None => Handle lib hardware fuel request
                = Some (Responded StatusInternalServerError NoBody)
      | Some requestData =>
          HasSamples hardware (Id requestData) = false ->
          Handle lib hardware fuel request
          = Some (Responded StatusInternalServerError NoBody)
      end).
Proof.
  unfold Handle. split; [|split].
  - intros Hpath. apply String.eqb_neq in Hpath. now rewrite Hpath.
  - intros -> Hmethod. apply String.eqb_neq in Hmethod. now rewrite Hmethod.
  - intros -> ->. destruct (Body request) as [requestData|]; [|reflexivity].
    intros Hnone. now rewrite Hnone.
Qed.

Lemma Handle_answers_without_tabulating_witness :
  Handle libAtHalfPi fan1 0 (mkRequest "/" "GET" None) = Some (Responded StatusOK Welcome).
Proof.
  apply (proj1 (Handle_answers_without_tabulating libAtHalfPi fan1 0
                  (mkRequest "/" "GET" None))).
  discriminate.
Defined.

(** X18: [PopulateSamples] stores no reading that no row gives: in the store
    it builds, a channel is nil at a device and a timestamp, or no sample is
    there, when no row of the channel's file names that device and
    timestamp. *)
Theorem PopulateSamples_invents_no_reading (files : list DataFile) (hardware : Hardware)
    (hardwareId : string) (t : Z) (c : Channel) :
  PopulateSamples files = Ok hardware ->
  (forall w, w ∈ rowsOf files -> writeKey w <> (hardwareId, Some t, fileTag c)) ->
  reading hardware hardwareId t c = None.
Proof.
  rewrite PopulateSamples_writes. intros Hfold Hrows.
  rewrite (foldl_ingestWrite_frame _ _ _ _ _ _ Hfold Hrows).
  unfold reading, storedAt. now rewrite lookup_empty.
Qed.

Lemma PopulateSamples_invents_no_reading_witness :
  reading twoChannelStore "fan1" 1000 ChRMSVelocityX = None.
Proof.
  apply (PopulateSamples_invents_no_reading twoChannelFiles twoChannelStore).
  - vm_compute. reflexivity.
  - intros w Hin. vm_compute in Hin.
    apply elem_of_cons in Hin as [->|Hin]; [discriminate|].
    apply elem_of_cons in Hin as [->|Hin]; [discriminate|].
    now apply elem_of_nil in Hin.
Defined.
